(** * devMedia: the post and profile aggregates of [routes/api]

    A shallow embedding of the request handlers of
    [src/routes/api/posts.js] and [src/routes/api/profile.js], and the
    properties of the nested collections they maintain (likes, comments,
    experience) and of the ownership checks that guard them.

    Conventions.
    - A handler is a function from the collection it works on to the
      response it sends and the collection it leaves behind.
    - The [try { ... } catch (err) { ... }] of a handler is an error monad
      ([Try]) run by the handler's [catch] clause.
    - The store answers every query and acknowledges every write, but for
      the save of a new experience or education entry, which it rejects
      when the entry does not pass the Profile model's schema; requests
      are handled one after the other.
    - JavaScript strings are [string]s, a character standing for a code
      unit below 256; array methods
      ([indexOf], [splice], [filter], [find], [unshift]) are list functions
      with JavaScript's conventions for a missing element ([-1]) and for
      relative indices written out. *)

From Stdlib Require Import ZArith Ascii String Lia.
From stdpp Require Import gmap strings list fin_maps.

Local Open Scope string_scope.
Local Open Scope list_scope.
Local Open Scope Z_scope.

(* ===================================================================== *)
(** ** JavaScript built-ins used by the handlers *)
(* ===================================================================== *)

Module JS.

(** [a === b] on strings. *)
Definition strict_eq (a b : string) : bool := String.eqb a b.

(** [arr.indexOf(x)]: the first index holding [x], or [-1]. *)
Fixpoint indexOf_from (l : list string) (x : string) (i : Z) : Z :=
  match l with
  | [] => -1
  | y :: l' => if strict_eq y x then i else indexOf_from l' x (i + 1)
  end.

Definition indexOf (l : list string) (x : string) : Z := indexOf_from l x 0.

(** [arr.splice(start, deleteCount)], as the array it leaves behind.
    A negative [start] counts from the end; both arguments are clamped
    to the array. *)
Definition splice {A} (l : list A) (start deleteCount : Z) : list A :=
  let len := Z.of_nat (length l) in
  let actualStart :=
    if start <? 0 then Z.max (len + start) 0 else Z.min start len in
  let actualDeleteCount := Z.min (Z.max deleteCount 0) (len - actualStart) in
  take (Z.to_nat actualStart) l
    ++ drop (Z.to_nat (actualStart + actualDeleteCount)) l.

(** [arr.unshift(x)]. *)
Definition unshift {A} (l : list A) (x : A) : list A := x :: l.

(** [arr.filter(f)] and [arr.find(f)]. *)
Definition filter {A} (f : A -> bool) (l : list A) : list A := List.filter f l.
Definition find {A} (f : A -> bool) (l : list A) : option A := List.find f l.

(** Truthiness of a request field that is a string or is missing:
    [undefined] and [""] are falsy. *)
Definition truthy (v : option string) : bool :=
  match v with
  | Some s => negb (strict_eq s "")
  | None => false
  end.

(** [WhiteSpace] and [LineTerminator] among the code units below 256:
    TAB, LF, VT, FF, CR, SP and NBSP. *)
Definition isWhiteSpace (c : ascii) : bool :=
  let n := nat_of_ascii c in
  ((9 <=? n) && (n <=? 13))%nat || (n =? 32)%nat || (n =? 160)%nat.

(** [s.trimStart()], [s.trimEnd()] and [s.trim()]. *)
Fixpoint trimStart (s : string) : string :=
  match s with
  | EmptyString => EmptyString
  | String c s' => if isWhiteSpace c then trimStart s' else s
  end.

Fixpoint trimEnd (s : string) : string :=
  match s with
  | EmptyString => EmptyString
  | String c s' =>
      match trimEnd s' with
      | EmptyString => if isWhiteSpace c then EmptyString else String c EmptyString
      | t => String c t
      end
  end.

Definition trim (s : string) : string := trimEnd (trimStart s).

(** [s.split(sep)] for a one-character separator: one piece more than
    there are separators, [""] giving [[""]]. *)
Fixpoint split (sep : ascii) (s : string) : list string :=
  match s with
  | EmptyString => [EmptyString]
  | String c s' =>
      if Ascii.eqb c sep then EmptyString :: split sep s'
      else match split sep s' with
           | piece :: rest => String c piece :: rest
           | [] => [String c EmptyString]
           end
  end.

End JS.

(* ===================================================================== *)
(** ** Responses and exceptions *)
(* ===================================================================== *)

(** What a [try] block can throw: the store's [CastError] for an
    identifier it cannot read (its [kind] is the type it expected), the
    [TypeError] of a property read on [null], and the [ValidationError]
    with which [save()] rejects a document its schema does not accept. *)
Inductive Exn :=
| CastError (kind : string)
| TypeError
| ValidationError.

(** [err.kind]. *)
Definition kind (e : Exn) : option string :=
  match e with
  | CastError k => Some k
  | TypeError => None
  | ValidationError => None
  end.

Definition Try (A : Type) : Type := Exn + A.

Definition throw {A} (e : Exn) : Try A := inl e.
Definition ret {A} (a : A) : Try A := inr a.
Definition bind {A B} (m : Try A) (k : A -> Try B) : Try B :=
  match m with
  | inl e => inl e
  | inr a => k a
  end.

Notation "'let*' x ':=' m 'in' k" := (bind m (fun x => k))
  (at level 10, x name, m at level 100, k at level 200).

(** [try { body } catch (err) { handler }]. *)
Definition try_catch {A} (body : Try A) (handler : Exn -> A) : A :=
  match body with
  | inl e => handler e
  | inr a => a
  end.

(** Reading a property of what a query returned: [null.f] throws. *)
Definition deref {A} (o : option A) : Try A :=
  match o with
  | Some a => ret a
  | None => throw TypeError
  end.

(** The error kinds of the API, by HTTP status. *)
Definition OK : nat := 200.
Definition BadRequest : nat := 400.
Definition Unauthorized : nat := 401.
Definition NotFound : nat := 404.
Definition ServerError : nat := 500.
(** Like and unlike report a conflict as a 400. *)
Definition Conflict : nat := BadRequest.

(* ===================================================================== *)
(** ** Users *)
(* ===================================================================== *)

(** What the handlers read of a User document
    ([select("-password")], [populate("user", ["name", "avatar"])]), and
    the User collection, by [_id]. *)
Record User := { user_name : string; user_avatar : string }.

Abbreviation Users := (gmap string User).

(* ===================================================================== *)
(** ** Posts: [routes/api/posts.js] *)
(* ===================================================================== *)

Module Posts.

(** An entry of [post.likes]: [{ user }]. *)
Record Like := { like_user : string }.

(** An entry of [post.comments]; [comment_id] is the identity the store
    gave the sub-document ([comment.id]), [comment_user] its author. *)
Record Comment := {
  comment_id : string;
  comment_text : string;
  comment_name : string;
  comment_avatar : string;
  comment_user : string;
  comment_date : nat
}.

(** A Post document (its [_id] is the key it is stored under). *)
Record Post := {
  post_text : string;
  post_name : string;
  post_avatar : string;
  post_user : string;
  post_date : nat;
  likes : list Like;
  comments : list Comment
}.

Definition set_likes (p : Post) (l : list Like) : Post :=
  {| post_text := post_text p; post_name := post_name p;
     post_avatar := post_avatar p; post_user := post_user p;
     post_date := post_date p; likes := l; comments := comments p |}.

Definition set_comments (p : Post) (c : list Comment) : Post :=
  {| post_text := post_text p; post_name := post_name p;
     post_avatar := post_avatar p; post_user := post_user p;
     post_date := post_date p; likes := likes p; comments := c |}.

(** What a handler sends: [res.status(n).json({ msg })],
    [res.status(n).send(text)], or [res.json(value)]. *)
Inductive Body :=
| Msg (msg : string)
| Text (text : string)
| PostJson (p : Post)
| LikesJson (l : list Like)
| CommentsJson (l : list Comment).

Record Response := { status : nat; body : Body }.

Definition json_msg (st : nat) (msg : string) : Response :=
  {| status := st; body := Msg msg |}.
Definition send (st : nat) (text : string) : Response :=
  {| status := st; body := Text text |}.
Definition json (b : Body) : Response := {| status := OK; body := b |}.

(** The Post collection: documents by [_id]. *)
Abbreviation Collection := (gmap string Post).

Section Handlers.

(** The store's reading of a request parameter as a document
    identifier: [None] for a string that is not structurally one. *)
Variable castObjectId : string -> option string.

(** [Post.findById(id)]: throws a [CastError] of kind ["ObjectId"] on
    an identifier it cannot read, and yields [null] when no document
    has it. *)
Definition findById (db : Collection) (id : string)
  : Try (string * option Post) :=
  match castObjectId id with
  | None => throw (CastError "ObjectId")
  | Some oid => ret (oid, db !! oid)
  end.

(** [post.save()] and [post.remove()] of the document loaded under
    [oid]. *)
Definition save (db : Collection) (oid : string) (p : Post) : Collection :=
  <[oid := p]> db.
Definition remove (db : Collection) (oid : string) : Collection :=
  delete oid db.

(** [GET /api/posts/:id]. *)
Definition get_post (id : string) (db : Collection)
  : Response * Collection :=
  try_catch
    (let* found := findById db id in
     match found.2 with
     | None => ret (json_msg NotFound "Post not Found.", db)
     | Some post => ret (json (PostJson post), db)
     end)
    (fun err =>
       if bool_decide (kind err = Some "ObjectId")
       then (json_msg NotFound "Post not Found.", db)
       else (send ServerError "Server Error.", db)).

(** [DELETE /api/posts/:id]. *)
Definition delete_post (principal id : string) (db : Collection)
  : Response * Collection :=
  try_catch
    (let* found := findById db id in
     match found.2 with
     | None => ret (json_msg NotFound "Post not Found.", db)
     | Some post =>
         if negb (JS.strict_eq (post_user post) principal)
         then ret (json_msg Unauthorized "User not Authorized to Delete.", db)
         else ret (json (Msg "Post Removed."), remove db found.1)
     end)
    (fun err =>
       if bool_decide (kind err = Some "ObjectId")
       then (json_msg NotFound "Post not Found.", db)
       else (send ServerError "Server Error.", db)).

(** [PUT /api/posts/like/:id]. *)
Definition like_post (principal id : string) (db : Collection)
  : Response * Collection :=
  try_catch
    (let* found := findById db id in
     let* post := deref found.2 in
     if (0 <? length (JS.filter
                        (fun like => JS.strict_eq (like_user like) principal)
                        (likes post)))%nat
     then ret (json_msg BadRequest "Post is already liked.", db)
     else
       let post := set_likes post
                     (JS.unshift (likes post) {| like_user := principal |}) in
       ret (json (LikesJson (likes post)), save db found.1 post))
    (fun err => (send ServerError "Server Error.", db)).

(** [PUT /api/posts/unlike/:id]. *)
Definition unlike_post (principal id : string) (db : Collection)
  : Response * Collection :=
  try_catch
    (let* found := findById db id in
     let* post := deref found.2 in
     if (length (JS.filter
                   (fun like => JS.strict_eq (like_user like) principal)
                   (likes post)) =? 0)%nat
     then ret (json_msg BadRequest "Post is not liked yet.", db)
     else
       let rmvIdx := JS.indexOf (map like_user (likes post)) principal in
       let post := set_likes post (JS.splice (likes post) rmvIdx 1) in
       ret (json (LikesJson (likes post)), save db found.1 post))
    (fun err => (send ServerError "Server Error.", db)).

(** [DELETE /api/posts/comment/:id/:comm_id]. *)
Definition delete_comment (principal id comm_id : string) (db : Collection)
  : Response * Collection :=
  try_catch
    (let* found := findById db id in
     let* post := deref found.2 in
     match JS.find (fun comment => JS.strict_eq (comment_id comment) comm_id)
                   (comments post) with
     | None => ret (json_msg NotFound "Comment does not Exist.", db)
     | Some comment =>
         if negb (JS.strict_eq (comment_user comment) principal)
         then ret (json_msg Unauthorized "User not Authorized.", db)
         else
           let rmvIdx :=
             JS.indexOf (map comment_user (comments post)) principal in
           let post :=
             set_comments post (JS.splice (comments post) rmvIdx 1) in
           ret (json (CommentsJson (comments post)), save db found.1 post)
     end)
    (fun err => (send ServerError "Server Error.", db)).

(** An identifier that refers to no post: one the store cannot read,
    or one no document has. *)
Definition no_such_post (db : Collection) (id : string) : Prop :=
  match castObjectId id with
  | None => True
  | Some oid => db !! oid = None
  end.

End Handlers.

(** *** Writing posts and comments *)

(** What [POST /api/posts] and [POST /api/posts/comment/:id] send: the
    validation errors ([res.status(400).json({ errors })]) or a response
    of the handler's [try] block. *)
Inductive Reply :=
| Rejected (errors : list string)
| Replied (r : Response).

Definition reply_status (r : Reply) : nat :=
  match r with
  | Rejected _ => BadRequest
  | Replied r => status r
  end.

(** [check(field, message).not().isEmpty()]. *)
Definition check (v : option string) (message : string) : list string :=
  if JS.truthy v then [] else [message].

Section Authoring.

Variable castObjectId : string -> option string.

(** [User.findById(id)]. *)
Definition findUserById (users : Users) (id : string)
  : Try (string * option User) :=
  match castObjectId id with
  | None => throw (CastError "ObjectId")
  | Some oid => ret (oid, users !! oid)
  end.

(** [POST /api/posts]. [oid] is the identity the new document gets and
    [now] the date it defaults to; the [user] stored is the principal's
    identifier as the store reads it. *)
Definition create_post (principal : string) (text : option string)
    (oid : string) (now : nat) (users : Users) (db : Collection)
  : Reply * Collection :=
  let errors := check text "Post text is required." in
  if negb (bool_decide (errors = [])) then (Rejected errors, db)
  else
    try_catch
      (let* found := findUserById users principal in
       let* user := deref found.2 in
       let newPost :=
         {| post_text := default "" text;
            post_name := user_name user;
            post_avatar := user_avatar user;
            post_user := found.1;
            post_date := now;
            likes := [];
            comments := [] |} in
       ret (Replied (json (PostJson newPost)), save db oid newPost))
      (fun err => (Replied (send ServerError "Server Error."), db)).

(** [POST /api/posts/comment/:id]. [cid] is the identity the new
    sub-document gets and [now] the date it defaults to. The handler does
    not wait for [post.save()]; the write is taken as done when the next
    request is handled. *)
Definition add_comment (principal id : string) (text : option string)
    (cid : string) (now : nat) (users : Users) (db : Collection)
  : Reply * Collection :=
  let errors := check text "Comment text is required." in
  if negb (bool_decide (errors = [])) then (Rejected errors, db)
  else
    try_catch
      (let* found_user := findUserById users principal in
       let* found := findById castObjectId db id in
       let* user := deref found_user.2 in
       let newComment :=
         {| comment_id := cid;
            comment_text := default "" text;
            comment_name := user_name user;
            comment_avatar := user_avatar user;
            comment_user := found_user.1;
            comment_date := now |} in
       let* post := deref found.2 in
       let post :=
         set_comments post (JS.unshift (comments post) newComment) in
       ret (Replied (json (CommentsJson (comments post))),
            save db found.1 post))
      (fun err => (Replied (send ServerError "Server Error."), db)).

(** The requests of [routes/api/posts.js] that reach a post, and the
    collection each leaves behind. *)
Inductive Request :=
| CreatePost (principal : string) (text : option string) (oid : string) (now : nat)
| GetPost (id : string)
| DeletePost (principal id : string)
| LikePost (principal id : string)
| UnlikePost (principal id : string)
| AddComment (principal id : string) (text : option string) (cid : string) (now : nat)
| DeleteComment (principal id comm_id : string).

Definition handle (users : Users) (req : Request) (db : Collection) : Collection :=
  match req with
  | CreatePost principal text oid now =>
      (create_post principal text oid now users db).2
  | GetPost id => (get_post castObjectId id db).2
  | DeletePost principal id => (delete_post castObjectId principal id db).2
  | LikePost principal id => (like_post castObjectId principal id db).2
  | UnlikePost principal id => (unlike_post castObjectId principal id db).2
  | AddComment principal id text cid now =>
      (add_comment principal id text cid now users db).2
  | DeleteComment principal id comm_id =>
      (delete_comment castObjectId principal id comm_id db).2
  end.

Definition handle_all (users : Users) (reqs : list Request) (db : Collection)
  : Collection :=
  foldl (fun db req => handle users req db) db reqs.

End Authoring.

(** At most one like per user on every post. *)
Definition unique_likes (db : Collection) : Prop :=
  forall oid post, db !! oid = Some post -> NoDup (map like_user (likes post)).

(** The comments of a post that [principal] did not write, in order. *)
Definition comments_of_others (principal : string) (post : Post) : list Comment :=
  List.filter (fun c => negb (JS.strict_eq (comment_user c) principal))
    (comments post).

(** *** Sample data

    A reading of identifiers as 24 hexadecimal digits, two users, and a
    post of [alice]'s on which [bob] commented twice and [alice] once. *)
Definition isHexDigit (c : ascii) : bool :=
  let n := nat_of_ascii c in
  ((48 <=? n) && (n <=? 57) || (97 <=? n) && (n <=? 102)
   || (65 <=? n) && (n <=? 70))%nat.

Definition hexObjectId (s : string) : option string :=
  if ((String.length s =? 24)%nat && forallb isHexDigit (list_ascii_of_string s))%bool
  then Some s else None.

Definition alice : string := "5d2c00000000000000000a11".
Definition bob : string := "5d2c00000000000000000b0b".
Definition post1 : string := "5d2c000000000000000000f1".
Definition post2 : string := "5d2c000000000000000000f2".

Definition comment_by (cid author text : string) : Comment :=
  {| comment_id := cid; comment_text := text; comment_name := "";
     comment_avatar := ""; comment_user := author; comment_date := 0 |}.

Definition c1 : Comment := comment_by "5d2c000000000000000000c1" bob "first".
Definition c2 : Comment := comment_by "5d2c000000000000000000c2" alice "mine".
Definition c3 : Comment := comment_by "5d2c000000000000000000c3" bob "second".

Definition hello : Post :=
  {| post_text := "hello"; post_name := "Alice"; post_avatar := "";
     post_user := alice; post_date := 0; likes := [];
     comments := [c1; c2; c3] |}.

Definition liked : Post :=
  {| post_text := "liked"; post_name := "Bob"; post_avatar := "";
     post_user := bob; post_date := 1;
     likes := [ {| like_user := bob |}; {| like_user := alice |} ];
     comments := [] |}.

Definition sample_db : Collection := <[ post2 := liked ]> {[ post1 := hello ]}.

(** An identifier no document has, and a string that is not one. *)
Definition post3 : string := "5d2c000000000000000000f3".
Definition not_an_id : string := "latest".

Definition sample_users : Users :=
  <[ bob := {| user_name := "Bob"; user_avatar := "b.png" |} ]>
    {[ alice := {| user_name := "Alice"; user_avatar := "a.png" |} ]}.

Definition c4 : string := "5d2c000000000000000000c4".

End Posts.

(* ===================================================================== *)
(** ** Profiles: [routes/api/profile.js] *)
(* ===================================================================== *)

Module Profiles.

(** [profile.social]. *)
Record Social := {
  youtube : option string;
  facebook : option string;
  twitter : option string;
  instagram : option string;
  linkedin : option string
}.

(** The body of [PUT /api/profile/experience], and the entry of
    [profile.experience] it becomes, with the identity the store gives the
    sub-document. *)
Record ExperienceBody := {
  exp_title : option string;
  exp_company : option string;
  exp_location : option string;
  exp_from : option string;
  exp_to : option string;
  exp_current : option bool;
  exp_description : option string
}.

Record Experience := { exp_id : nat; exp_fields : ExperienceBody }.

Record Education := {
  edu_id : nat;
  edu_school : option string;
  edu_degree : option string;
  edu_fieldofstudy : option string;
  edu_from : option string;
  edu_to : option string;
  edu_current : option bool;
  edu_description : option string
}.

(** A Profile document. *)
Record Profile := {
  profile_id : nat;
  user : string;
  company : option string;
  website : option string;
  location : option string;
  bio : option string;
  status : option string;
  githubusername : option string;
  skills : list string;
  social : Social;
  experience : list Experience;
  education : list Education
}.

(** [req.body] of [POST /api/profile]: every field a string or missing. *)
Record ProfileBody := {
  body_company : option string;
  body_website : option string;
  body_location : option string;
  body_bio : option string;
  body_status : option string;
  body_githubusername : option string;
  body_skills : option string;
  body_youtube : option string;
  body_facebook : option string;
  body_twitter : option string;
  body_instagram : option string;
  body_linkedin : option string
}.

(** The [profileFields] object the handler builds: a key is present
    ([Some]) when the handler assigned it. [user] and [social] always
    are. *)
Record ProfileFields := {
  pf_user : string;
  pf_company : option string;
  pf_website : option string;
  pf_location : option string;
  pf_bio : option string;
  pf_status : option string;
  pf_githubusername : option string;
  pf_skills : option (list string);
  pf_social : Social
}.

Inductive Body :=
| Msg (msg : string)
| Text (text : string)
| Errors (errors : list string)
| ProfileJson (p : option Profile).

Record Response := { code : nat; body : Body }.

Definition json_at (st : nat) (b : Body) : Response :=
  {| code := st; body := b |}.
Definition send (st : nat) (text : string) : Response :=
  {| code := st; body := Text text |}.
Definition json (b : Body) : Response := {| code := OK; body := b |}.

(** The Profile collection, in the store's natural order, and the next
    identity the store hands out. *)
Record Store := { docs : list Profile; next_id : nat }.

Definition empty : Store := {| docs := []; next_id := 0 |}.

(** [check(field, message).not().isEmpty()]. *)
Definition check (v : option string) (message : string) : list string :=
  if JS.truthy v then [] else [message].

(** [if (v) profileFields.k = v]. *)
Definition when_truthy (v : option string) : option string :=
  if JS.truthy v then v else None.

(** Lines 78-97: [profileFields] from the principal and the body. *)
Definition build_fields (principal : string) (b : ProfileBody) : ProfileFields :=
  {| pf_user := principal;
     pf_company := when_truthy (body_company b);
     pf_website := when_truthy (body_website b);
     pf_location := when_truthy (body_location b);
     pf_bio := when_truthy (body_bio b);
     pf_status := when_truthy (body_status b);
     pf_githubusername := when_truthy (body_githubusername b);
     pf_skills :=
       match body_skills b with
       | Some skills =>
           if JS.truthy (Some skills)
           then Some (map JS.trim (JS.split "," skills))
           else None
       | None => None
       end;
     pf_social :=
       {| youtube := when_truthy (body_youtube b);
          facebook := when_truthy (body_facebook b);
          twitter := when_truthy (body_twitter b);
          instagram := when_truthy (body_instagram b);
          linkedin := when_truthy (body_linkedin b) |} |}.

(** [{ $set: profileFields }] on a document: every key of
    [profileFields] replaces the document's field of that name, the other
    fields stay. *)
Definition set_key {A} (new : option A) (old : option A) : option A :=
  match new with
  | Some v => Some v
  | None => old
  end.

Definition set_fields (pf : ProfileFields) (p : Profile) : Profile :=
  {| profile_id := profile_id p;
     user := pf_user pf;
     company := set_key (pf_company pf) (company p);
     website := set_key (pf_website pf) (website p);
     location := set_key (pf_location pf) (location p);
     bio := set_key (pf_bio pf) (bio p);
     status := set_key (pf_status pf) (status p);
     githubusername := set_key (pf_githubusername pf) (githubusername p);
     skills := default (skills p) (pf_skills pf);
     social := pf_social pf;
     experience := experience p;
     education := education p |}.

(** [new Profile(profileFields)], under the identity [id]. *)
Definition new_profile (id : nat) (pf : ProfileFields) : Profile :=
  {| profile_id := id;
     user := pf_user pf;
     company := pf_company pf;
     website := pf_website pf;
     location := pf_location pf;
     bio := pf_bio pf;
     status := pf_status pf;
     githubusername := pf_githubusername pf;
     skills := default [] (pf_skills pf);
     social := pf_social pf;
     experience := [];
     education := [] |}.

(** [Profile.findOne({ user })]: the first document of the user, or
    [null]. *)
Definition findOne (u : string) (st : Store) : option Profile :=
  JS.find (fun p => JS.strict_eq (user p) u) (docs st).

(** [Profile.findOneAndUpdate({ user }, { $set }, { new: true })]: the
    first document of the user is updated and returned as updated. *)
Fixpoint update_first (u : string) (pf : ProfileFields) (l : list Profile)
  : list Profile * option Profile :=
  match l with
  | [] => ([], None)
  | p :: l' =>
      if JS.strict_eq (user p) u
      then (set_fields pf p :: l', Some (set_fields pf p))
      else
        let r := update_first u pf l' in (p :: r.1, r.2)
  end.

Definition findOneAndUpdate (u : string) (pf : ProfileFields) (st : Store)
  : Store * option Profile :=
  let r := update_first u pf (docs st) in
  ({| docs := r.1; next_id := next_id st |}, r.2).

(** [profile.save()] of a new document, and of a loaded one (written
    back under its [_id]). *)
Definition insert_doc (p : Profile) (st : Store) : Store :=
  {| docs := docs st ++ [p]; next_id := next_id st |}.

Fixpoint replace_doc (p : Profile) (l : list Profile) : list Profile :=
  match l with
  | [] => []
  | q :: l' =>
      if (profile_id q =? profile_id p)%nat then p :: l'
      else q :: replace_doc p l'
  end.

Definition save_doc (p : Profile) (st : Store) : Store :=
  {| docs := replace_doc p (docs st); next_id := next_id st |}.

(** A fresh identity. *)
Definition fresh (st : Store) : nat * Store :=
  (next_id st, {| docs := docs st; next_id := S (next_id st) |}).

(** [POST /api/profile]: create the principal's profile or update it. *)
Definition upsert_profile (principal : string) (b : ProfileBody) (st : Store)
  : Response * Store :=
  let errors :=
    check (body_status b) "Status is required."
      ++ check (body_skills b) "Skills is required." in
  if negb (bool_decide (errors = [])) then (json_at BadRequest (Errors errors), st)
  else
    let profileFields := build_fields principal b in
    try_catch
      (match findOne principal st with
       | Some _ =>
           let r := findOneAndUpdate principal profileFields st in
           ret (json (ProfileJson r.2), r.1)
       | None =>
           let i := fresh st in
           let profile := new_profile i.1 profileFields in
           ret (json (ProfileJson (Some profile)), insert_doc profile i.2)
       end)
      (fun err => (send ServerError "Server Error.", st)).

Definition push_experience (p : Profile) (e : Experience) : Profile :=
  {| profile_id := profile_id p; user := user p; company := company p;
     website := website p; location := location p; bio := bio p;
     status := status p; githubusername := githubusername p;
     skills := skills p; social := social p;
     experience := JS.unshift (experience p) e;
     education := education p |}.

(** [await profile.save()] of a loaded profile that got a new entry: the
    store validates the entry against the schema first and rejects the
    save, writing nothing, when it does not pass. [accepted_by_schema]
    says whether the new entry passes. *)
Definition save_validated (accepted_by_schema : bool) (p : Profile) (st : Store)
  : Try Store :=
  if accepted_by_schema then ret (save_doc p st) else throw ValidationError.

(** [PUT /api/profile/experience]. The schema of the Profile model
    ([models/Profile.js]) is not among the sources: [experience_ok] is its
    verdict on an entry of [experience] (a [from] that is no date is
    turned down, say). *)
Definition add_experience (experience_ok : ExperienceBody -> bool)
    (principal : string) (newExp : ExperienceBody) (st : Store)
  : Response * Store :=
  let errors :=
    check (exp_title newExp) "Title is required."
      ++ check (exp_company newExp) "Company is required."
      ++ check (exp_from newExp) "From date is required." in
  if negb (bool_decide (errors = [])) then (json_at BadRequest (Errors errors), st)
  else
    try_catch
      (let* profile := deref (findOne principal st) in
       let i := fresh st in
       let profile :=
         push_experience profile {| exp_id := i.1; exp_fields := newExp |} in
       let* saved := save_validated (experience_ok newExp) profile i.2 in
       ret (json (ProfileJson (Some profile)), saved))
      (fun err => (send ServerError "Server Error.", st)).

(** A sequence of upserts, each by its own principal. *)
Definition upsert_all (calls : list (string * ProfileBody)) (st : Store) : Store :=
  foldl (fun st call => (upsert_profile call.1 call.2 st).2) st calls.

(** A sequence of experience entries added by one principal, in order. *)
Definition add_experiences (experience_ok : ExperienceBody -> bool)
    (principal : string) (entries : list ExperienceBody) (st : Store) : Store :=
  foldl (fun st e => (add_experience experience_ok principal e st).2) st entries.

(** The number of Profile documents of a user. *)
Definition profiles_of (u : string) (st : Store) : nat :=
  length (JS.filter (fun p => JS.strict_eq (user p) u) (docs st)).

(** A body the validators of [POST /api/profile] let through, and an
    entry those of [PUT /api/profile/experience] let through. *)
Definition accepted (b : ProfileBody) : Prop :=
  JS.truthy (body_status b) = true /\ JS.truthy (body_skills b) = true.

Definition valid_experience (e : ExperienceBody) : Prop :=
  JS.truthy (exp_title e) = true /\ JS.truthy (exp_company e) = true
  /\ JS.truthy (exp_from e) = true.

(** *** Reading profiles, deleting the account, removing entries *)

(** A profile after [populate("user", ["name", "avatar"])]: with the User
    document its [user] refers to, or [null]. *)
Record Populated := {
  populated_profile : Profile;
  populated_user : option User
}.

Definition populate (users : Users) (p : Profile) : Populated :=
  {| populated_profile := p; populated_user := users !! user p |}.

Inductive ReadBody :=
| ReadMsg (msg : string)
| ReadText (text : string)
| ProfileWithUser (p : Populated).

Record ReadResponse := { read_code : nat; read_body : ReadBody }.

(** [GET /api/profile/me]. *)
Definition get_me (principal : string) (users : Users) (st : Store)
  : ReadResponse :=
  try_catch
    (match findOne principal st with
     | None =>
         ret {| read_code := BadRequest;
                read_body := ReadMsg "There's no Profile for this user" |}
     | Some profile =>
         ret {| read_code := OK;
                read_body := ProfileWithUser (populate users profile) |}
     end)
    (fun err =>
       {| read_code := ServerError; read_body := ReadText "Server Error!" |}).

(** [Profile.findOneAndRemove({ user })]: the first document of the user
    goes. *)
Fixpoint remove_first (u : string) (l : list Profile) : list Profile :=
  match l with
  | [] => []
  | p :: l' => if JS.strict_eq (user p) u then l' else p :: remove_first u l'
  end.

(** [DELETE /api/profile]: the principal's profile and User document. *)
Definition delete_own (principal : string) (users : Users) (st : Store)
  : Response * (Store * Users) :=
  try_catch
    (let st := {| docs := remove_first principal (docs st);
                  next_id := next_id st |} in
     let users := delete principal users in
     ret (json (Msg "User Deleted"), (st, users)))
    (fun err => (send ServerError "Server Error.", (st, users))).

Definition set_experience (p : Profile) (l : list Experience) : Profile :=
  {| profile_id := profile_id p; user := user p; company := company p;
     website := website p; location := location p; bio := bio p;
     status := status p; githubusername := githubusername p;
     skills := skills p; social := social p;
     experience := l; education := education p |}.

Definition set_education (p : Profile) (l : list Education) : Profile :=
  {| profile_id := profile_id p; user := user p; company := company p;
     website := website p; location := location p; bio := bio p;
     status := status p; githubusername := githubusername p;
     skills := skills p; social := social p;
     experience := experience p; education := l |}.

(** The body of [PUT /api/profile/education]. *)
Record EducationBody := {
  new_school : option string;
  new_degree : option string;
  new_fieldofstudy : option string;
  new_from : option string;
  new_to : option string;
  new_current : option bool;
  new_description : option string
}.

Definition valid_education (e : EducationBody) : Prop :=
  JS.truthy (new_school e) = true /\ JS.truthy (new_degree e) = true
  /\ JS.truthy (new_fieldofstudy e) = true /\ JS.truthy (new_from e) = true.

(** [PUT /api/profile/education]. [education_ok] is the verdict of the
    Profile model's schema on an entry of [education]. *)
Definition add_education (education_ok : EducationBody -> bool)
    (principal : string) (newEdu : EducationBody) (st : Store)
  : Response * Store :=
  let errors :=
    check (new_school newEdu) "School is required."
      ++ check (new_degree newEdu) "Degree is required."
      ++ check (new_fieldofstudy newEdu) "Field of Study is required."
      ++ check (new_from newEdu) "From date is required." in
  if negb (bool_decide (errors = [])) then (json_at BadRequest (Errors errors), st)
  else
    try_catch
      (let* profile := deref (findOne principal st) in
       let i := fresh st in
       let profile :=
         set_education profile
           (JS.unshift (education profile)
              {| edu_id := i.1;
                 edu_school := new_school newEdu;
                 edu_degree := new_degree newEdu;
                 edu_fieldofstudy := new_fieldofstudy newEdu;
                 edu_from := new_from newEdu;
                 edu_to := new_to newEdu;
                 edu_current := new_current newEdu;
                 edu_description := new_description newEdu |}) in
       let* saved := save_validated (education_ok newEdu) profile i.2 in
       ret (json (ProfileJson (Some profile)), saved))
      (fun err => (send ServerError "Server Error.", st)).

Section ByIdentity.

(** The store's reading of a request parameter as a user identifier, and
    the string an entry's identity is written as ([item.id]). *)
Variable castObjectId : string -> option string.
Variable idString : nat -> string.

(** [GET /api/profile/user/:user_id]. *)
Definition get_profile_by_user (user_id : string) (users : Users) (st : Store)
  : ReadResponse :=
  try_catch
    (let* profile :=
       match castObjectId user_id with
       | None => throw (CastError "ObjectId")
       | Some uoid => ret (findOne uoid st)
       end in
     match profile with
     | None =>
         ret {| read_code := BadRequest;
                read_body := ReadMsg "Profile Not Found." |}
     | Some profile =>
         ret {| read_code := OK;
                read_body := ProfileWithUser (populate users profile) |}
     end)
    (fun err =>
       if bool_decide (kind err = Some "ObjectId")
       then {| read_code := BadRequest;
               read_body := ReadMsg "Profile Not Found." |}
       else {| read_code := ServerError;
               read_body := ReadText "Server Error." |}).

(** [DELETE /api/profile/experience/:exp_id]. *)
Definition remove_experience (principal id : string) (st : Store)
  : Response * Store :=
  try_catch
    (let* profile := deref (findOne principal st) in
     let rmvIdx :=
       JS.indexOf (map (fun item => idString (exp_id item)) (experience profile))
         id in
     if rmvIdx =? -1 then ret (json_at BadRequest (Msg "ID not Found"), st)
     else
       let profile :=
         set_experience profile (JS.splice (experience profile) rmvIdx 1) in
       ret (json (ProfileJson (Some profile)), save_doc profile st))
    (fun err => (send ServerError "Server Error.", st)).

(** [DELETE /api/profile/education/:edu_id]. *)
Definition remove_education (principal id : string) (st : Store)
  : Response * Store :=
  try_catch
    (let* profile := deref (findOne principal st) in
     let rmvIdx :=
       JS.indexOf (map (fun item => idString (edu_id item)) (education profile))
         id in
     if rmvIdx =? -1 then ret (json_at BadRequest (Msg "ID not Found"), st)
     else
       let profile :=
         set_education profile (JS.splice (education profile) rmvIdx 1) in
       ret (json (ProfileJson (Some profile)), save_doc profile st))
    (fun err => (send ServerError "Server Error.", st)).

End ByIdentity.

(** *** Identities

    The identities of a profile (its own and those of its entries), and
    the collections in which every identity was handed out by [fresh]:
    all are below [next_id]. *)
Definition identities (p : Profile) : list nat :=
  profile_id p :: map exp_id (experience p) ++ map edu_id (education p).

Definition ids_below (st : Store) : Prop :=
  Forall (fun p => Forall (fun i => (i < next_id st)%nat) (identities p))
    (docs st).

(** What an update does to an optional field that the body gives as
    [v]: a truthy [v] is the new value, otherwise the old value stays. *)
Definition written (v old new : option string) : Prop :=
  if JS.truthy v then new = v else new = old.

(** *** The normal form of [skills], in the words of the specification

    The input is cut at its commas, and each piece loses the white space
    around it. *)
Definition comma : ascii := ",".

Fixpoint join_commas (pieces : list string) : string :=
  match pieces with
  | [] => EmptyString
  | [piece] => piece
  | piece :: rest => String.append piece (String comma (join_commas rest))
  end.

Definition comma_free (s : string) : Prop :=
  Forall (fun c => c <> comma) (list_ascii_of_string s).

Definition cut_at_commas (input : string) (pieces : list string) : Prop :=
  pieces <> [] /\ join_commas pieces = input /\ Forall comma_free pieces.

Definition blank (s : string) : Prop :=
  Forall (fun c => JS.isWhiteSpace c = true) (list_ascii_of_string s).

Definition no_blank_at_start (s : string) : Prop :=
  match s with
  | EmptyString => True
  | String c _ => JS.isWhiteSpace c = false
  end.

Definition no_blank_at_end (s : string) : Prop :=
  forall s' c, s = String.append s' (String c EmptyString) ->
               JS.isWhiteSpace c = false.

Definition trimmed_of (piece t : string) : Prop :=
  exists l r,
    piece = String.append l (String.append t r) /\ blank l /\ blank r /\
    no_blank_at_start t /\ no_blank_at_end t.

Definition normalized_skills (input : string) (skills : list string) : Prop :=
  exists pieces, cut_at_commas input pieces /\ Forall2 trimmed_of pieces skills.

(** *** Sample data *)
Definition alice : string := "5d2c00000000000000000a11".

Definition dev : Profile :=
  {| profile_id := 0; user := alice; company := Some "Acme";
     website := None; location := Some "Porto Alegre"; bio := None;
     status := Some "Developer"; githubusername := None;
     skills := ["html"];
     social :=
       {| youtube := Some "https://youtube.com/dev"; facebook := None;
          twitter := Some "https://twitter.com/dev"; instagram := None;
          linkedin := None |};
     experience := []; education := [] |}.

Definition one_profile : Store := {| docs := [dev]; next_id := 1 |}.

(** A body with the required fields only. *)
Definition required_only : ProfileBody :=
  {| body_company := None; body_website := None; body_location := None;
     body_bio := None; body_status := Some "Senior Developer";
     body_githubusername := None; body_skills := Some "node, react , css";
     body_youtube := None; body_facebook := None; body_twitter := None;
     body_instagram := None; body_linkedin := None |}.

Definition job (title from : string) : ExperienceBody :=
  {| exp_title := Some title; exp_company := Some "Acme";
     exp_location := None; exp_from := Some from; exp_to := None;
     exp_current := None; exp_description := None |}.

Definition course (school from : string) : EducationBody :=
  {| new_school := Some school; new_degree := Some "BSc";
     new_fieldofstudy := Some "Computing"; new_from := Some from;
     new_to := None; new_current := None; new_description := None |}.

Definition sample_users : Users :=
  {[ alice := {| user_name := "Alice"; user_avatar := "a.png" |} ]}.

(** [dev] with two jobs and a course, and a second user's profile. *)
Definition senior : Experience :=
  {| exp_id := 2; exp_fields := job "Senior" "2019" |}.
Definition junior : Experience :=
  {| exp_id := 1; exp_fields := job "Junior" "2015" |}.
Definition degree : Education :=
  {| edu_id := 3; edu_school := Some "UFRGS"; edu_degree := Some "BSc";
     edu_fieldofstudy := Some "Computing"; edu_from := Some "2010";
     edu_to := None; edu_current := None; edu_description := None |}.

Definition studied : Profile :=
  set_education (set_experience dev [senior; junior]) [degree].

Definition bob : string := "5d2c00000000000000000b0b".

Definition bobs : Profile :=
  {| profile_id := 4; user := bob; company := None; website := None;
     location := None; bio := None; status := Some "Student";
     githubusername := None; skills := ["css"];
     social := {| youtube := None; facebook := None; twitter := None;
                  instagram := None; linkedin := None |};
     experience := []; education := [] |}.

Definition history : Store := {| docs := [bobs; studied]; next_id := 5 |}.

(** A reading of user identifiers for the examples: 24 characters. *)
Definition by_length (s : string) : option string :=
  if (String.length s =? 24)%nat then Some s else None.

(** A schema for the examples: [from] is a year, written in digits. *)
Definition isDigit (c : ascii) : bool :=
  let n := nat_of_ascii c in ((48 <=? n) && (n <=? 57))%nat.

Definition year (v : option string) : bool :=
  match v with
  | Some s => negb (JS.strict_eq s "") && forallb isDigit (list_ascii_of_string s)
  | None => false
  end.

Definition dated_experience (e : ExperienceBody) : bool := year (exp_from e).
Definition dated_education (e : EducationBody) : bool := year (new_from e).

(** A second body for [alice], with a company and a website. *)
Definition promoted : ProfileBody :=
  {| body_company := Some "Initech"; body_website := Some "https://dev.example";
     body_location := None; body_bio := None; body_status := Some "Lead";
     body_githubusername := None; body_skills := Some "go,rust";
     body_youtube := None; body_facebook := None; body_twitter := None;
     body_instagram := None; body_linkedin := None |}.

(** Identities written as one character, for the examples. *)
Definition one_char (n : nat) : string :=
  String (ascii_of_nat (48 + n)) EmptyString.

End Profiles.

(* ===================================================================== *)
(** ** Facts about the JavaScript built-ins *)
(* ===================================================================== *)

Section JSFacts.

Lemma strict_eq_true a b : JS.strict_eq a b = true <-> a = b.
Proof. apply String.eqb_eq. Qed.

Lemma strict_eq_false a b : JS.strict_eq a b = false <-> a <> b.
Proof. apply String.eqb_neq. Qed.

Lemma strict_eq_refl a : JS.strict_eq a a = true.
Proof. by apply strict_eq_true. Qed.

Context {A : Type} (key : A -> string).

(** [indexOf] over the keys of an array finds the first element with the
    key, when there is one. *)
Lemma indexOf_from_first (l : list A) (u : string) (i : Z) :
  (exists x, x ∈ l /\ key x = u) ->
  exists before hit after,
    l = before ++ hit :: after /\ key hit = u /\
    Forall (fun y => key y <> u) before /\
    JS.indexOf_from (map key l) u i = i + Z.of_nat (length before).
Proof.
  revert i. induction l as [|y l IH]; intros i [x [Hin Hx]].
  - by apply elem_of_nil in Hin.
  - simpl. destruct (JS.strict_eq (key y) u) eqn:E.
    + apply strict_eq_true in E. exists [], y, l. simpl.
      repeat split; [done | constructor | lia].
    + apply strict_eq_false in E.
      apply elem_of_cons in Hin as [-> | Hin]; [done |].
      destruct (IH (i + 1)) as (b & h & a & -> & Hh & Hb & Hi); [by eauto |].
      exists (y :: b), h, a. simpl. repeat split; [done | by constructor |].
      rewrite Hi. lia.
Qed.

Lemma indexOf_first (l : list A) (u : string) :
  (exists x, x ∈ l /\ key x = u) ->
  exists before hit after,
    l = before ++ hit :: after /\ key hit = u /\
    Forall (fun y => key y <> u) before /\
    JS.indexOf (map key l) u = Z.of_nat (length before).
Proof.
  intros H. destruct (indexOf_from_first l u 0 H) as (b & h & a & ? & ? & ? & Hi).
  exists b, h, a. by rewrite <- (Z.add_0_l (Z.of_nat _)).
Qed.

(** [indexOf] answers [-1] exactly when no element has the key. *)
Lemma indexOf_from_missing (l : list A) (u : string) (i : Z) :
  (forall x, x ∈ l -> key x <> u) -> JS.indexOf_from (map key l) u i = -1.
Proof.
  revert i. induction l as [|y l IH]; intros i H; [done |]. simpl.
  destruct (JS.strict_eq (key y) u) eqn:E.
  - apply strict_eq_true in E. exfalso. apply (H y); [left | done].
  - apply IH. intros x Hx. apply H. by right.
Qed.

(** Removing one element at the index of [hit]. *)
Lemma splice_one (before after : list A) (hit : A) :
  JS.splice (before ++ hit :: after) (Z.of_nat (length before)) 1
  = before ++ after.
Proof.
  unfold JS.splice. rewrite length_app. simpl length.
  rewrite (proj2 (Z.ltb_ge (Z.of_nat (length before)) 0)) by lia.
  replace (Z.min _ (Z.of_nat (length before + S (length after))))
    with (Z.of_nat (length before)) by lia.
  replace (Z.min (Z.max 1 0) _) with 1 by lia.
  replace (Z.of_nat (length before) + 1) with (Z.of_nat (S (length before))) by lia.
  rewrite !Nat2Z.id.
  rewrite take_app_length.
  change (S (length before)) with (1 + length before)%nat.
  rewrite Nat.add_comm.
  by rewrite (drop_app_add before (hit :: after) 1).
Qed.

(** The guard [arr.filter(f).length > 0]. *)
Lemma filter_length_pos (f : A -> bool) (l : list A) :
  (0 <? length (JS.filter f l))%nat = true <-> exists x, x ∈ l /\ f x = true.
Proof.
  unfold JS.filter. rewrite Nat.ltb_lt. split.
  - intros H. destruct (List.filter f l) as [|x r] eqn:E; [simpl in H; lia |].
    assert (In x (List.filter f l)) as Hx by (rewrite E; by left).
    apply filter_In in Hx as [Hx Hf]. exists x. by rewrite list_elem_of_In.
  - intros (x & Hx & Hf). apply list_elem_of_In in Hx.
    assert (In x (List.filter f l)) as Hin by (by apply filter_In).
    destruct (List.filter f l); [done | simpl; lia].
Qed.

Lemma filter_length_zero (f : A -> bool) (l : list A) :
  (length (JS.filter f l) =? 0)%nat = true <-> forall x, x ∈ l -> f x = false.
Proof.
  rewrite Nat.eqb_eq. split.
  - intros H x Hx. destruct (f x) eqn:E; [| done].
    assert ((0 <? length (JS.filter f l))%nat = true) as Hp
      by (apply filter_length_pos; eauto).
    apply Nat.ltb_lt in Hp. lia.
  - intros H. destruct (length (JS.filter f l)) eqn:E; [done |].
    assert ((0 <? length (JS.filter f l))%nat = true) as Hp
      by (apply Nat.ltb_lt; lia).
    apply filter_length_pos in Hp as (x & Hx & Hf).
    rewrite (H x Hx) in Hf. done.
Qed.

(** [find] yields the first element that passes the test. *)
Lemma find_first (f : A -> bool) (l : list A) (x : A) :
  JS.find f l = Some x <->
  exists before after,
    l = before ++ x :: after /\ f x = true /\
    Forall (fun y => f y = false) before.
Proof.
  unfold JS.find. split.
  - induction l as [|y l IH]; [done |]. simpl.
    destruct (f y) eqn:E.
    + intros [= ->]. exists [], l. repeat split; [done | constructor].
    + intros H. destruct (IH H) as (b & a & -> & Hx & Hb).
      exists (y :: b), a. repeat split; [done | by constructor].
  - intros (b & a & -> & Hx & Hb). induction Hb as [|y b Hy Hb IH]; simpl.
    + by rewrite Hx.
    + by rewrite Hy.
Qed.

Lemma find_none_filter (f : A -> bool) (l : list A) :
  JS.find f l = None -> JS.filter f l = [].
Proof.
  unfold JS.find, JS.filter. induction l as [|y l IH]; [done |]. simpl.
  destruct (f y); [done | exact IH].
Qed.

Lemma filter_all_false (f : A -> bool) (l : list A) :
  Forall (fun y => f y = false) l -> JS.filter f l = [].
Proof.
  unfold JS.filter. induction 1 as [|y l Hy Hl IH]; [done |]. simpl.
  by rewrite Hy.
Qed.

End JSFacts.

(* ===================================================================== *)
(** ** Posts: likes, comments and ownership *)
(* ===================================================================== *)

Section PostsSpec.

Import Posts.

Variable castObjectId : string -> option string.

Implicit Types (db : Collection) (principal id comm_id oid : string).
Implicit Types (post : Post) (r : Response).

(** A handler that finds its post runs its [try] block on it. *)
Lemma findById_found db id oid :
  castObjectId id = Some oid ->
  findById castObjectId db id = ret (oid, db !! oid).
Proof. intros H. unfold findById. by rewrite H. Qed.

(** On an identifier that refers to no post, [findById] throws or
    yields [null]. *)
Lemma findById_missing db id :
  no_such_post castObjectId db id ->
  findById castObjectId db id = throw (CastError "ObjectId")
  \/ exists oid, findById castObjectId db id = ret (oid, None).
Proof.
  unfold no_such_post, findById. destruct (castObjectId id) as [oid|].
  - intros ->. right. by exists oid.
  - intros _. by left.
Qed.

Lemma status_codes_distinct :
  OK <> BadRequest /\ OK <> Unauthorized /\ OK <> NotFound /\ OK <> ServerError
  /\ ServerError <> NotFound.
Proof. unfold OK, BadRequest, Unauthorized, NotFound, ServerError. lia. Qed.

(** The successful run of [delete_comment], step by step. *)
Lemma delete_comment_ok_inv db principal id comm_id r db' :
  delete_comment castObjectId principal id comm_id db = (r, db') ->
  status r = OK ->
  exists oid post hit,
    castObjectId id = Some oid /\ db !! oid = Some post /\
    hit ∈ comments post /\ comment_id hit = comm_id /\
    comment_user hit = principal /\
    r = json (CommentsJson
                (JS.splice (comments post)
                   (JS.indexOf (map comment_user (comments post)) principal) 1)) /\
    db' = <[oid := set_comments post
                     (JS.splice (comments post)
                        (JS.indexOf (map comment_user (comments post)) principal) 1)]> db.
Proof.
  destruct status_codes_distinct as (H400 & H401 & H404 & H500 & _).
  unfold delete_comment, findById.
  destruct (castObjectId id) as [oid|]; simpl;
    [| intros [= <- <-] Hs; by symmetry in Hs].
  destruct (db !! oid) as [post|] eqn:Hpost; simpl;
    [| intros [= <- <-] Hs; by symmetry in Hs].
  destruct (JS.find _ (comments post)) as [hit|] eqn:Hfind; simpl;
    [| intros [= <- <-] Hs; by symmetry in Hs].
  apply find_some in Hfind as [Hin Hid].
  apply strict_eq_true in Hid. apply list_elem_of_In in Hin.
  destruct (JS.strict_eq (comment_user hit) principal) eqn:Hu; simpl;
    [| intros [= <- <-] Hs; by symmetry in Hs].
  apply strict_eq_true in Hu.
  intros [= <- <-] _. by exists oid, post, hit.
Qed.

(** C1. When [delete_comment] succeeds, the entry it removes from
    [comments] is the first one whose author is the principal: the
    comments before it are by other authors, the response and the stored
    post hold the comments without it. That entry need not be the one
    [comm_id] names: on a post where the principal wrote two comments,
    asking for the second removes the first and keeps the second. *)
Theorem delete_comment_removes_first_by_author :
  (forall db principal id comm_id r db',
      delete_comment castObjectId principal id comm_id db = (r, db') ->
      status r = OK ->
      exists oid post before removed after,
        castObjectId id = Some oid /\ db !! oid = Some post /\
        comments post = before ++ removed :: after /\
        comment_user removed = principal /\
        Forall (fun c => comment_user c <> principal) before /\
        body r = CommentsJson (before ++ after) /\
        db' = <[oid := set_comments post (before ++ after)]> db)
  /\ (exists post principal comm_id before removed after,
         comments post = before ++ removed :: after /\
         comment_user removed = principal /\
         Forall (fun c => comment_user c <> principal) before /\
         comment_id removed <> comm_id /\
         (exists named, named ∈ before ++ after /\ comment_id named = comm_id) /\
         forall db id oid,
           castObjectId id = Some oid -> db !! oid = Some post ->
           delete_comment castObjectId principal id comm_id db
           = (json (CommentsJson (before ++ after)),
              <[oid := set_comments post (before ++ after)]> db)).
Proof.
  split.
  - intros db principal id comm_id r db' Hrun Hok.
    destruct (delete_comment_ok_inv _ _ _ _ _ _ Hrun Hok)
      as (oid & post & hit & Hcast & Hpost & Hin & _ & Hu & -> & ->).
    destruct (indexOf_first comment_user (comments post) principal)
      as (before & removed & after & Hsplit & Hr & Hb & Hidx); [by eauto |].
    exists oid, post, before, removed, after.
    rewrite Hidx, Hsplit, splice_one. by rewrite <- Hsplit.
  - exists hello, bob, (comment_id c3), [], c1, [c2; c3].
    repeat split; [constructor | by vm_compute | |].
    + exists c3. split; [| done]. simpl. set_solver.
    + intros db id oid Hcast Hpost.
      unfold delete_comment. rewrite (findById_found _ _ _ Hcast), Hpost.
      reflexivity.
Qed.

(** C2. On an existing post, [delete_comment] answers NotFound when no
    comment has the identity [comm_id], and Unauthorized when a comment
    has it but was written by someone other than the principal, whoever
    owns the post (the post's [user] is never read); either way the
    collection, and so the post's comments, stay as they were. *)
Theorem delete_comment_failures db principal id comm_id oid post :
  castObjectId id = Some oid ->
  db !! oid = Some post ->
  ((forall c, c ∈ comments post -> comment_id c <> comm_id) ->
   status (delete_comment castObjectId principal id comm_id db).1 = NotFound /\
   (delete_comment castObjectId principal id comm_id db).2 = db)
  /\ ((exists c, c ∈ comments post /\ comment_id c = comm_id) ->
      (forall c, c ∈ comments post -> comment_id c = comm_id ->
                 comment_user c <> principal) ->
      status (delete_comment castObjectId principal id comm_id db).1 = Unauthorized /\
      (delete_comment castObjectId principal id comm_id db).2 = db /\
      (delete_comment castObjectId principal id comm_id db).2 !! oid = Some post).
Proof.
  intros Hcast Hpost. unfold delete_comment.
  rewrite (findById_found _ _ _ Hcast), Hpost. simpl.
  destruct (JS.find _ (comments post)) as [hit|] eqn:Hfind.
  - apply find_some in Hfind as [Hin Hid].
    apply strict_eq_true in Hid. apply list_elem_of_In in Hin. split.
    + intros Hnone. by destruct (Hnone hit Hin).
    + intros _ Hother.
      apply Hother, strict_eq_false in Hid; [| done]. by rewrite Hid.
  - split; [done |]. intros (c & Hin & Hid) _. exfalso.
    apply list_elem_of_In in Hin.
    pose proof (find_none _ _ Hfind c Hin) as Hc. simpl in Hc.
    apply strict_eq_false in Hc. done.
Qed.

(** C3. On an existing post, [like_post] answers Conflict and leaves the
    collection as it was when [likes] holds an entry of the principal;
    otherwise it puts [{ user: principal }] at the head of [likes], stores
    the post and answers with the new [likes]. So on a post nobody liked,
    a second like by the same principal is a Conflict and leaves one
    like. *)
Theorem like_post_guard db principal id oid post :
  castObjectId id = Some oid ->
  db !! oid = Some post ->
  ((exists l, l ∈ likes post /\ like_user l = principal) ->
   (like_post castObjectId principal id db).1
   = json_msg Conflict "Post is already liked." /\
   (like_post castObjectId principal id db).2 = db)
  /\ ((forall l, l ∈ likes post -> like_user l <> principal) ->
      like_post castObjectId principal id db
      = (json (LikesJson ({| like_user := principal |} :: likes post)),
         <[oid := set_likes post ({| like_user := principal |} :: likes post)]> db))
  /\ (likes post = [] ->
      let db1 := (like_post castObjectId principal id db).2 in
      (like_post castObjectId principal id db1).1
      = json_msg Conflict "Post is already liked." /\
      (like_post castObjectId principal id db1).2 = db1 /\
      exists post1, db1 !! oid = Some post1 /\ length (likes post1) = 1%nat).
Proof.
  intros Hcast Hpost.
  assert (forall db0 post0,
             db0 !! oid = Some post0 ->
             (exists l, l ∈ likes post0 /\ like_user l = principal) ->
             like_post castObjectId principal id db0
             = (json_msg BadRequest "Post is already liked.", db0)) as Hliked.
  { intros db0 post0 Hp (l & Hin & Hl). unfold like_post.
    rewrite (findById_found _ _ _ Hcast), Hp. simpl.
    rewrite (proj2 (filter_length_pos _ (likes post0))); [done |].
    exists l. split; [done |]. by apply strict_eq_true. }
  assert ((forall l, l ∈ likes post -> like_user l <> principal) ->
          like_post castObjectId principal id db
          = (json (LikesJson ({| like_user := principal |} :: likes post)),
             <[oid := set_likes post ({| like_user := principal |} :: likes post)]> db))
    as Hfresh.
  { intros Hnone. unfold like_post.
    rewrite (findById_found _ _ _ Hcast), Hpost. simpl.
    destruct (0 <? length _)%nat eqn:E; [| done].
    apply filter_length_pos in E as (l & Hin & Hl).
    apply strict_eq_true in Hl. by destruct (Hnone l Hin). }
  split; [| split].
  - intros H. by rewrite (Hliked db post Hpost H).
  - done.
  - intros Hnil db1. subst db1. rewrite Hfresh.
    2:{ intros l Hin. rewrite Hnil in Hin. by apply elem_of_nil in Hin. }
    simpl. rewrite Hnil.
    erewrite Hliked.
    + split; [done |]. split; [done |].
      eexists. split; [apply lookup_insert_eq | done].
    + apply lookup_insert_eq.
    + exists {| like_user := principal |}. split; [| done]. simpl. set_solver.
Qed.

(** C4. On an existing post, [unlike_post] answers Conflict and leaves
    the collection as it was when no entry of [likes] is the
    principal's; otherwise it removes the first entry of the principal,
    and only that one, stores the post and answers with the new
    [likes]. *)
Theorem unlike_post_guard db principal id oid post :
  castObjectId id = Some oid ->
  db !! oid = Some post ->
  ((forall l, l ∈ likes post -> like_user l <> principal) ->
   (unlike_post castObjectId principal id db).1
   = json_msg Conflict "Post is not liked yet." /\
   (unlike_post castObjectId principal id db).2 = db)
  /\ ((exists l, l ∈ likes post /\ like_user l = principal) ->
      exists before removed after,
        likes post = before ++ removed :: after /\
        like_user removed = principal /\
        Forall (fun l => like_user l <> principal) before /\
        unlike_post castObjectId principal id db
        = (json (LikesJson (before ++ after)),
           <[oid := set_likes post (before ++ after)]> db)).
Proof.
  intros Hcast Hpost. unfold unlike_post.
  rewrite (findById_found _ _ _ Hcast), Hpost. simpl. split.
  - intros Hnone.
    rewrite (proj2 (filter_length_zero _ (likes post))); [done |].
    intros l Hin. by apply strict_eq_false, Hnone.
  - intros Hsome.
    destruct (length _ =? 0)%nat eqn:E.
    { destruct Hsome as (l & Hin & Hl).
      pose proof (proj1 (filter_length_zero _ (likes post)) E l Hin) as Hf.
      simpl in Hf. apply strict_eq_false in Hf. done. }
    destruct (indexOf_first like_user (likes post) principal Hsome)
      as (before & removed & after & Hsplit & Hr & Hb & Hidx).
    exists before, removed, after. repeat split; [done.. |].
    rewrite Hidx, Hsplit. by rewrite splice_one.
Qed.

(** C5. [delete_post] answers NotFound when the identifier refers to no
    post; on an existing post it answers Unauthorized and leaves the post
    in place when the post's [user] is not the principal, and otherwise
    removes the post, after which [get_post] of the same identifier
    answers NotFound. *)
Theorem delete_post_cases db principal id :
  (no_such_post castObjectId db id ->
   status (delete_post castObjectId principal id db).1 = NotFound /\
   (delete_post castObjectId principal id db).2 = db)
  /\ (forall oid post,
        castObjectId id = Some oid -> db !! oid = Some post ->
        (post_user post <> principal ->
         status (delete_post castObjectId principal id db).1 = Unauthorized /\
         (delete_post castObjectId principal id db).2 = db /\
         (delete_post castObjectId principal id db).2 !! oid = Some post)
        /\ (post_user post = principal ->
            let db' := (delete_post castObjectId principal id db).2 in
            status (delete_post castObjectId principal id db).1 = OK /\
            db' = delete oid db /\ db' !! oid = None /\
            status (get_post castObjectId id db').1 = NotFound)).
Proof.
  split.
  - intros Hmiss. unfold delete_post.
    destruct (findById_missing db id Hmiss) as [-> | [oid ->]]; by simpl.
  - intros oid post Hcast Hpost. unfold delete_post.
    rewrite (findById_found _ _ _ Hcast), Hpost. simpl. split.
    + intros Hne. apply strict_eq_false in Hne. by rewrite Hne.
    + intros Heq. apply strict_eq_true in Heq. rewrite Heq. simpl.
      unfold remove. rewrite lookup_delete_eq. repeat split.
      unfold get_post. rewrite (findById_found _ _ _ Hcast). simpl.
      by rewrite lookup_delete_eq.
Qed.

(** C10. On an identifier that refers to no post (one the store cannot
    read, or one no document has), [like_post] and [unlike_post] do not
    answer NotFound: the handler's [catch] turns the exception into the
    generic server failure, and the collection stays as it was.
    [get_post] and [delete_post] answer NotFound for the same
    identifier. *)
Theorem like_unlike_missing_post db principal id :
  no_such_post castObjectId db id ->
  (like_post castObjectId principal id db
   = (send ServerError "Server Error.", db)
   /\ status (like_post castObjectId principal id db).1 <> NotFound)
  /\ (unlike_post castObjectId principal id db
      = (send ServerError "Server Error.", db)
      /\ status (unlike_post castObjectId principal id db).1 <> NotFound)
  /\ status (get_post castObjectId id db).1 = NotFound
  /\ status (delete_post castObjectId principal id db).1 = NotFound.
Proof.
  destruct status_codes_distinct as (_ & _ & _ & _ & Hne).
  intros Hmiss. unfold like_post, unlike_post, get_post, delete_post.
  destruct (findById_missing db id Hmiss) as [-> | [oid ->]]; by simpl.
Qed.

End PostsSpec.

(** *** The post theorems on the sample data *)

Lemma delete_comment_removes_first_by_author_witness :
  exists oid post before removed after,
    Posts.hexObjectId Posts.post1 = Some oid /\
    Posts.sample_db !! oid = Some post /\
    Posts.comments post = before ++ removed :: after /\
    Posts.comment_user removed = Posts.bob /\
    Forall (fun c => Posts.comment_user c <> Posts.bob) before /\
    Posts.body (Posts.json (Posts.CommentsJson [Posts.c2; Posts.c3]))
    = Posts.CommentsJson (before ++ after) /\
    <[Posts.post1 := Posts.set_comments Posts.hello [Posts.c2; Posts.c3]]>
      Posts.sample_db
    = <[oid := Posts.set_comments post (before ++ after)]> Posts.sample_db.
Proof.
  apply (proj1 (delete_comment_removes_first_by_author Posts.hexObjectId)
           Posts.sample_db Posts.bob Posts.post1
           (Posts.comment_id Posts.c3)).
  - vm_compute. reflexivity.
  - reflexivity.
Defined.

Lemma delete_comment_failures_witness :
  (Posts.status
     (Posts.delete_comment Posts.hexObjectId Posts.alice Posts.post1
        Posts.post3 Posts.sample_db).1 = NotFound /\
   (Posts.delete_comment Posts.hexObjectId Posts.alice Posts.post1
      Posts.post3 Posts.sample_db).2 = Posts.sample_db)
  /\ (Posts.status
        (Posts.delete_comment Posts.hexObjectId Posts.alice Posts.post1
           (Posts.comment_id Posts.c1) Posts.sample_db).1 = Unauthorized /\
      (Posts.delete_comment Posts.hexObjectId Posts.alice Posts.post1
         (Posts.comment_id Posts.c1) Posts.sample_db).2 = Posts.sample_db /\
      (Posts.delete_comment Posts.hexObjectId Posts.alice Posts.post1
         (Posts.comment_id Posts.c1) Posts.sample_db).2 !! Posts.post1
      = Some Posts.hello)
  /\ Posts.post_user Posts.hello = Posts.alice.
Proof.
  split; [| split; [| reflexivity]].
  - apply (proj1 (delete_comment_failures Posts.hexObjectId Posts.sample_db
                    Posts.alice Posts.post1 Posts.post3
                    Posts.post1 Posts.hello eq_refl eq_refl)).
    intros c Hc. apply list_elem_of_In in Hc.
    destruct Hc as [<- | [<- | [<- | []]]]; vm_compute; congruence.
  - apply (proj2 (delete_comment_failures Posts.hexObjectId Posts.sample_db
                    Posts.alice Posts.post1 (Posts.comment_id Posts.c1)
                    Posts.post1 Posts.hello eq_refl eq_refl)).
    + exists Posts.c1. split; [left | reflexivity].
    + intros c Hc Hid. apply list_elem_of_In in Hc.
      destruct Hc as [<- | [<- | [<- | []]]]; vm_compute in Hid |- *; congruence.
Defined.

Lemma like_post_guard_witness :
  ((Posts.like_post Posts.hexObjectId Posts.alice Posts.post2 Posts.sample_db).1
   = Posts.json_msg Conflict "Post is already liked." /\
   (Posts.like_post Posts.hexObjectId Posts.alice Posts.post2 Posts.sample_db).2
   = Posts.sample_db)
  /\ Posts.like_post Posts.hexObjectId Posts.bob Posts.post1 Posts.sample_db
     = (Posts.json (Posts.LikesJson [ {| Posts.like_user := Posts.bob |} ]),
        <[Posts.post1 :=
            Posts.set_likes Posts.hello [ {| Posts.like_user := Posts.bob |} ]]>
          Posts.sample_db)
  /\ (let db1 :=
        (Posts.like_post Posts.hexObjectId Posts.bob Posts.post1 Posts.sample_db).2 in
      (Posts.like_post Posts.hexObjectId Posts.bob Posts.post1 db1).1
      = Posts.json_msg Conflict "Post is already liked." /\
      (Posts.like_post Posts.hexObjectId Posts.bob Posts.post1 db1).2 = db1 /\
      exists p, db1 !! Posts.post1 = Some p /\ length (Posts.likes p) = 1%nat).
Proof.
  split; [| split].
  - apply (proj1 (like_post_guard Posts.hexObjectId Posts.sample_db Posts.alice
                    Posts.post2 Posts.post2 Posts.liked eq_refl eq_refl)).
    exists {| Posts.like_user := Posts.alice |}.
    split; [right; left | reflexivity].
  - apply (proj1 (proj2 (like_post_guard Posts.hexObjectId Posts.sample_db
                           Posts.bob Posts.post1 Posts.post1 Posts.hello
                           eq_refl eq_refl))).
    intros l Hl. by apply elem_of_nil in Hl.
  - apply (proj2 (proj2 (like_post_guard Posts.hexObjectId Posts.sample_db
                           Posts.bob Posts.post1 Posts.post1 Posts.hello
                           eq_refl eq_refl))).
    reflexivity.
Defined.

Lemma unlike_post_guard_witness :
  ((Posts.unlike_post Posts.hexObjectId Posts.bob Posts.post1 Posts.sample_db).1
   = Posts.json_msg Conflict "Post is not liked yet." /\
   (Posts.unlike_post Posts.hexObjectId Posts.bob Posts.post1 Posts.sample_db).2
   = Posts.sample_db)
  /\ (exists before removed after,
        Posts.likes Posts.liked = before ++ removed :: after /\
        Posts.like_user removed = Posts.alice /\
        Forall (fun l => Posts.like_user l <> Posts.alice) before /\
        Posts.unlike_post Posts.hexObjectId Posts.alice Posts.post2 Posts.sample_db
        = (Posts.json (Posts.LikesJson (before ++ after)),
           <[Posts.post2 := Posts.set_likes Posts.liked (before ++ after)]>
             Posts.sample_db)).
Proof.
  split.
  - apply (proj1 (unlike_post_guard Posts.hexObjectId Posts.sample_db Posts.bob
                    Posts.post1 Posts.post1 Posts.hello eq_refl eq_refl)).
    intros l Hl. by apply elem_of_nil in Hl.
  - apply (proj2 (unlike_post_guard Posts.hexObjectId Posts.sample_db Posts.alice
                    Posts.post2 Posts.post2 Posts.liked eq_refl eq_refl)).
    exists {| Posts.like_user := Posts.alice |}.
    split; [right; left | reflexivity].
Defined.

Lemma delete_post_cases_witness :
  (Posts.status
     (Posts.delete_post Posts.hexObjectId Posts.alice Posts.not_an_id
        Posts.sample_db).1 = NotFound /\
   (Posts.delete_post Posts.hexObjectId Posts.alice Posts.not_an_id
      Posts.sample_db).2 = Posts.sample_db)
  /\ (Posts.status
        (Posts.delete_post Posts.hexObjectId Posts.alice Posts.post3
           Posts.sample_db).1 = NotFound /\
      (Posts.delete_post Posts.hexObjectId Posts.alice Posts.post3
         Posts.sample_db).2 = Posts.sample_db)
  /\ (Posts.status
        (Posts.delete_post Posts.hexObjectId Posts.bob Posts.post1
           Posts.sample_db).1 = Unauthorized /\
      (Posts.delete_post Posts.hexObjectId Posts.bob Posts.post1
         Posts.sample_db).2 = Posts.sample_db /\
      (Posts.delete_post Posts.hexObjectId Posts.bob Posts.post1
         Posts.sample_db).2 !! Posts.post1 = Some Posts.hello)
  /\ (let db' :=
        (Posts.delete_post Posts.hexObjectId Posts.alice Posts.post1
           Posts.sample_db).2 in
      Posts.status
        (Posts.delete_post Posts.hexObjectId Posts.alice Posts.post1
           Posts.sample_db).1 = OK /\
      db' = delete Posts.post1 Posts.sample_db /\
      db' !! Posts.post1 = None /\
      Posts.status (Posts.get_post Posts.hexObjectId Posts.post1 db').1 = NotFound).
Proof.
  split; [| split; [| split]].
  - apply (proj1 (delete_post_cases Posts.hexObjectId Posts.sample_db
                    Posts.alice Posts.not_an_id)).
    exact I.
  - apply (proj1 (delete_post_cases Posts.hexObjectId Posts.sample_db
                    Posts.alice Posts.post3)).
    reflexivity.
  - apply (proj1 (proj2 (delete_post_cases Posts.hexObjectId Posts.sample_db
                           Posts.bob Posts.post1)
                    Posts.post1 Posts.hello eq_refl eq_refl)).
    vm_compute. congruence.
  - apply (proj2 (proj2 (delete_post_cases Posts.hexObjectId Posts.sample_db
                           Posts.alice Posts.post1)
                    Posts.post1 Posts.hello eq_refl eq_refl)).
    reflexivity.
Defined.

Lemma like_unlike_missing_post_witness :
  Posts.like_post Posts.hexObjectId Posts.bob Posts.not_an_id Posts.sample_db
  = (Posts.send ServerError "Server Error.", Posts.sample_db)
  /\ Posts.unlike_post Posts.hexObjectId Posts.bob Posts.not_an_id Posts.sample_db
     = (Posts.send ServerError "Server Error.", Posts.sample_db)
  /\ Posts.like_post Posts.hexObjectId Posts.bob Posts.post3 Posts.sample_db
     = (Posts.send ServerError "Server Error.", Posts.sample_db)
  /\ Posts.unlike_post Posts.hexObjectId Posts.bob Posts.post3 Posts.sample_db
     = (Posts.send ServerError "Server Error.", Posts.sample_db)
  /\ Posts.status
       (Posts.get_post Posts.hexObjectId Posts.not_an_id Posts.sample_db).1
     = NotFound
  /\ Posts.status
       (Posts.get_post Posts.hexObjectId Posts.post3 Posts.sample_db).1
     = NotFound.
Proof.
  pose proof (like_unlike_missing_post Posts.hexObjectId Posts.sample_db
                Posts.bob Posts.not_an_id I)
    as ((Hlike & _) & (Hunlike & _) & Hget & _).
  pose proof (like_unlike_missing_post Posts.hexObjectId Posts.sample_db
                Posts.bob Posts.post3 eq_refl)
    as ((Hlike' & _) & (Hunlike' & _) & Hget' & _).
  repeat split; assumption.
Defined.

(* ===================================================================== *)
(** ** Profiles: upsert, skills and experience *)
(* ===================================================================== *)

Section ProfilesSpec.

Import Profiles.

Implicit Types (st : Store) (p q : Profile) (b : ProfileBody).
Implicit Types (principal u : string) (pf : ProfileFields).

Lemma findOne_first u st p :
  findOne u st = Some p <->
  exists before after,
    docs st = before ++ p :: after /\ user p = u /\
    Forall (fun q => user q <> u) before.
Proof.
  unfold findOne. rewrite find_first. split.
  - intros (bf & af & Hd & Hu & Hb). exists bf, af.
    repeat split; [done | by apply strict_eq_true |].
    eapply Forall_impl; [exact Hb |]. intros q Hq. by apply strict_eq_false.
  - intros (bf & af & Hd & Hu & Hb). exists bf, af.
    repeat split; [done | by apply strict_eq_true |].
    eapply Forall_impl; [exact Hb |]. intros q Hq. by apply strict_eq_false.
Qed.

(** [findOneAndUpdate] rewrites the first document of the user, in
    place. *)
Lemma update_first_at u pf before p after :
  Forall (fun q => user q <> u) before -> user p = u ->
  update_first u pf (before ++ p :: after)
  = (before ++ set_fields pf p :: after, Some (set_fields pf p)).
Proof.
  intros Hb Hp. induction Hb as [|q bf Hq Hb IH]; simpl.
  - apply strict_eq_true in Hp. by rewrite Hp.
  - apply strict_eq_false in Hq. by rewrite Hq, IH.
Qed.

Lemma accepted_no_errors b :
  accepted b ->
  check (body_status b) "Status is required."
    ++ check (body_skills b) "Skills is required." = [].
Proof. intros [H1 H2]. unfold check. by rewrite H1, H2. Qed.

Lemma findOne_none u st :
  findOne u st = None <-> Forall (fun q => user q <> u) (docs st).
Proof.
  unfold findOne, JS.find. rewrite Forall_forall. split.
  - intros H q Hq. apply list_elem_of_In in Hq.
    apply strict_eq_false. exact (find_none _ _ H q Hq).
  - intros H. destruct (List.find _ (docs st)) as [q|] eqn:E; [| done].
    apply find_some in E as [Hin Hq]. apply list_elem_of_In in Hin.
    apply strict_eq_true in Hq. by destruct (H q Hin).
Qed.

Lemma upsert_profile_update_at principal b before p after n :
  accepted b ->
  Forall (fun q => user q <> principal) before -> user p = principal ->
  upsert_profile principal b {| docs := before ++ p :: after; next_id := n |}
  = (json (ProfileJson (Some (set_fields (build_fields principal b) p))),
     {| docs := before ++ set_fields (build_fields principal b) p :: after;
        next_id := n |}).
Proof.
  intros Hacc Hb Hu.
  assert (findOne principal {| docs := before ++ p :: after; next_id := n |}
          = Some p) as Hfind by (apply findOne_first; by exists before, after).
  unfold upsert_profile. rewrite (accepted_no_errors b Hacc). simpl.
  rewrite Hfind. simpl. unfold findOneAndUpdate. simpl.
  by rewrite (update_first_at _ _ _ _ _ Hb Hu).
Qed.

(** The update path of [upsert_profile]. *)
Lemma upsert_profile_update principal b st p :
  accepted b -> findOne principal st = Some p ->
  exists before after,
    docs st = before ++ p :: after /\
    Forall (fun q => user q <> principal) before /\
    upsert_profile principal b st
    = (json (ProfileJson (Some (set_fields (build_fields principal b) p))),
       {| docs := before ++ set_fields (build_fields principal b) p :: after;
          next_id := next_id st |}).
Proof.
  intros Hacc Hfind.
  destruct (proj1 (findOne_first _ _ _) Hfind) as (bf & af & Hd & Hu & Hb).
  exists bf, af. repeat split; [done.. |].
  unfold upsert_profile. rewrite (accepted_no_errors b Hacc). simpl.
  rewrite Hfind. simpl. unfold findOneAndUpdate.
  by rewrite Hd, (update_first_at _ _ _ _ _ Hb Hu).
Qed.

(** The create path of [upsert_profile]. *)
Lemma upsert_profile_create principal b st :
  accepted b -> findOne principal st = None ->
  upsert_profile principal b st
  = (json (ProfileJson
             (Some (new_profile (next_id st) (build_fields principal b)))),
     {| docs := docs st ++ [new_profile (next_id st) (build_fields principal b)];
        next_id := S (next_id st) |}).
Proof.
  intros Hacc Hfind. unfold upsert_profile.
  rewrite (accepted_no_errors b Hacc). simpl. by rewrite Hfind.
Qed.

Lemma profiles_of_app u l1 l2 n :
  profiles_of u {| docs := l1 ++ l2; next_id := n |}
  = (profiles_of u {| docs := l1; next_id := n |}
     + profiles_of u {| docs := l2; next_id := n |})%nat.
Proof.
  unfold profiles_of, JS.filter. simpl. by rewrite List.filter_app, length_app.
Qed.

Lemma profiles_of_none u st :
  findOne u st = None -> profiles_of u st = 0%nat.
Proof.
  intros H. unfold profiles_of. unfold findOne in H.
  by rewrite (find_none_filter _ _ H).
Qed.

(** One upsert keeps a user's profile count, except that it raises the
    principal's from none to one. *)
Lemma upsert_profile_count principal b st u :
  (profiles_of u st <= 1)%nat ->
  (profiles_of u (upsert_profile principal b st).2 <= 1)%nat.
Proof.
  intros Hle. unfold upsert_profile.
  destruct (negb (bool_decide _)); [done |].
  destruct (findOne principal st) as [p|] eqn:Hfind; simpl.
  - destruct (proj1 (findOne_first _ _ _) Hfind) as (bf & af & Hd & Hu & Hb).
    rewrite Hd, (update_first_at _ _ _ _ _ Hb Hu). simpl.
    destruct st as [d n]. simpl in Hd. subst d.
    rewrite profiles_of_app in Hle |- *.
    unfold profiles_of, JS.filter in Hle |- *. simpl in Hle |- *.
    rewrite Hu in Hle. by destruct (JS.strict_eq principal u).
  - unfold insert_doc. simpl. rewrite profiles_of_app.
    destruct st as [d n]. simpl.
    unfold profiles_of at 2. unfold JS.filter. simpl.
    destruct (JS.strict_eq principal u) eqn:E; simpl.
    + apply strict_eq_true in E. subst u.
      replace {| docs := d; next_id := S n |}
        with {| docs := docs {| docs := d; next_id := n |}; next_id := S n |}
        by done.
      unfold profiles_of at 1. simpl.
      pose proof (profiles_of_none _ _ Hfind) as H0.
      unfold profiles_of in H0. simpl in H0. rewrite H0. lia.
    + unfold profiles_of in Hle |- *. simpl in Hle |- *. lia.
Qed.

(** After an accepted upsert the principal's profile is the one the
    handler wrote: the old one with the fields set, or a new one. *)
Lemma upsert_profile_stored principal b st :
  accepted b ->
  findOne principal (upsert_profile principal b st).2
  = Some (match findOne principal st with
          | Some p => set_fields (build_fields principal b) p
          | None => new_profile (next_id st) (build_fields principal b)
          end).
Proof.
  intros Hacc. destruct (findOne principal st) as [p|] eqn:Hfind.
  - destruct (upsert_profile_update _ _ _ _ Hacc Hfind)
      as (bf & af & Hd & Hb & ->). simpl.
    apply findOne_first. by exists bf, af.
  - rewrite (upsert_profile_create _ _ _ Hacc Hfind). simpl.
    apply findOne_first. exists (docs st), []. simpl.
    by apply findOne_none in Hfind.
Qed.

(** X24. On update, a top-level optional field that the body leaves out
    keeps its value, the document keeps its identity, and [experience] and
    [education] are untouched. *)
Lemma upsert_profile_keeps_absent_fields principal b st p :
  accepted b -> findOne principal st = Some p ->
  exists p',
    findOne principal (upsert_profile principal b st).2 = Some p' /\
    profile_id p' = profile_id p /\
    (body_company b = None -> company p' = company p) /\
    (body_website b = None -> website p' = website p) /\
    (body_location b = None -> location p' = location p) /\
    (body_bio b = None -> bio p' = bio p) /\
    (body_githubusername b = None -> githubusername p' = githubusername p) /\
    experience p' = experience p /\ education p' = education p.
Proof.
  intros Hacc Hfind. eexists.
  rewrite (upsert_profile_stored _ _ _ Hacc), Hfind.
  split; [done |]. simpl.
  repeat split; try done; by intros ->.
Qed.

(** On update, [social] is the body's social links and nothing else:
    [profileFields.social] is always a key of the [$set]. *)
Lemma upsert_profile_social_replaced principal b st p :
  accepted b -> findOne principal st = Some p ->
  exists p',
    findOne principal (upsert_profile principal b st).2 = Some p' /\
    social p' =
      {| youtube := when_truthy (body_youtube b);
         facebook := when_truthy (body_facebook b);
         twitter := when_truthy (body_twitter b);
         instagram := when_truthy (body_instagram b);
         linkedin := when_truthy (body_linkedin b) |}.
Proof.
  intros Hacc Hfind. eexists.
  by rewrite (upsert_profile_stored _ _ _ Hacc), Hfind.
Qed.

(** C6. The partial update does not reach [social]: updating the profile
    [dev], whose [youtube] and [twitter] links are set, with a body that
    has the required fields only, leaves both links unset, while the
    top-level fields the body leaves out ([company], [location]) keep
    their values. *)
Theorem upsert_profile_resets_absent_social :
  findOne alice one_profile = Some dev /\
  youtube (social dev) = Some "https://youtube.com/dev" /\
  twitter (social dev) = Some "https://twitter.com/dev" /\
  body_youtube required_only = None /\
  body_twitter required_only = None /\
  accepted required_only /\
  exists p,
    findOne alice (upsert_profile alice required_only one_profile).2 = Some p /\
    (upsert_profile alice required_only one_profile).1
    = json (ProfileJson (Some p)) /\
    youtube (social p) = None /\ twitter (social p) = None /\
    company p = company dev /\ location p = location dev.
Proof.
  repeat split; try reflexivity.
  eexists. repeat split; reflexivity.
Qed.

(** A truthy field of the body is what the update stores; a field the
    body leaves out or leaves empty keeps what was stored. *)
Lemma set_key_written v old : written v old (set_key (when_truthy v) old).
Proof.
  unfold written, when_truthy. destruct (JS.truthy v) eqn:E; [| done].
  destruct v as [x|]; [done | discriminate E].
Qed.

Lemma accepted_status_written b old :
  accepted b -> set_key (when_truthy (body_status b)) old = body_status b.
Proof.
  intros [Hs _]. pose proof (set_key_written (body_status b) old) as H.
  unfold written in H. by rewrite Hs in H.
Qed.

Lemma accepted_skills_written principal b s :
  accepted b -> body_skills b = Some s ->
  pf_skills (build_fields principal b) = Some (map JS.trim (JS.split comma s)).
Proof.
  intros [_ Hs] Hin. unfold build_fields. cbn [pf_skills].
  rewrite Hin in Hs |- *. by rewrite Hs.
Qed.

(** C7. However many upserts are made, by whichever principals and with
    whatever bodies, a user with at most one Profile still has at most
    one. And when a principal without a Profile upserts twice, the first
    call creates a document and the second changes that document: it
    keeps its identity, its place in the collection and its entries, its
    [status] and [skills] are those of the second body, and each other
    top-level field is the second body's when that gives one and the
    first call's otherwise. *)
Theorem upsert_profile_at_most_one :
  (forall calls st u,
      (profiles_of u st <= 1)%nat ->
      (profiles_of u (upsert_all calls st) <= 1)%nat)
  /\ (forall principal b1 b2 st,
        accepted b1 -> accepted b2 -> findOne principal st = None ->
        let st1 := (upsert_profile principal b1 st).2 in
        let st2 := (upsert_profile principal b2 st1).2 in
        exists created updated,
          findOne principal st1 = Some created /\
          profile_id created = next_id st /\
          status created = body_status b1 /\
          findOne principal st2 = Some updated /\
          updated = set_fields (build_fields principal b2) created /\
          profile_id updated = profile_id created /\
          map profile_id (docs st2) = map profile_id (docs st1) /\
          profiles_of principal st1 = 1%nat /\
          profiles_of principal st2 = 1%nat /\
          status updated = body_status b2 /\
          (forall s, body_skills b2 = Some s ->
                     skills updated = map JS.trim (JS.split comma s)) /\
          written (body_company b2) (company created) (company updated) /\
          written (body_website b2) (website created) (website updated) /\
          written (body_location b2) (location created) (location updated) /\
          written (body_bio b2) (bio created) (bio updated) /\
          written (body_githubusername b2) (githubusername created)
            (githubusername updated) /\
          experience updated = experience created /\
          education updated = education created).
Proof.
  split.
  - intros calls. induction calls as [|[principal b] calls IH]; intros st u Hle.
    + done.
    + unfold upsert_all. simpl. apply IH.
      by apply upsert_profile_count.
  - intros principal b1 b2 st Hb1 Hb2 Hnone st1 st2. subst st1 st2.
    rewrite (upsert_profile_create _ _ _ Hb1 Hnone). simpl.
    set (created := new_profile (next_id st) (build_fields principal b1)).
    pose proof (proj1 (findOne_none _ _) Hnone) as Hothers.
    rewrite (upsert_profile_update_at principal b2 (docs st) created []
               (S (next_id st)) Hb2 Hothers eq_refl). simpl.
    assert (forall n,
               profiles_of principal
                 {| docs := docs st
                            ++ [set_fields (build_fields principal b2) created];
                    next_id := n |} = 1%nat) as Hone2.
    { intros n. rewrite profiles_of_app. unfold profiles_of, JS.filter. simpl.
      rewrite (filter_all_false _ (docs st)), strict_eq_refl; [done |].
      eapply Forall_impl; [exact Hothers |]. intros q Hq.
      by apply strict_eq_false. }
    assert (forall n,
               profiles_of principal
                 {| docs := docs st ++ [created]; next_id := n |} = 1%nat)
      as Hone1.
    { intros n. rewrite profiles_of_app. unfold profiles_of, JS.filter. simpl.
      rewrite (filter_all_false _ (docs st)), strict_eq_refl; [done |].
      eapply Forall_impl; [exact Hothers |]. intros q Hq.
      by apply strict_eq_false. }
    exists created, (set_fields (build_fields principal b2) created).
    split; [apply findOne_first; by exists (docs st), [] |].
    split; [done |].
    split; [unfold created, new_profile, build_fields, when_truthy;
            cbn [status pf_status]; by destruct Hb1 as [-> _] |].
    split; [apply findOne_first; by exists (docs st), [] |].
    split; [done |]. split; [done |].
    split; [by rewrite !map_app |].
    split; [apply Hone1 |]. split; [apply Hone2 |].
    split; [apply (accepted_status_written b2 _ Hb2) |].
    split.
    { intros s Hs. unfold set_fields. cbn [skills].
      by rewrite (accepted_skills_written principal b2 s Hb2 Hs). }
    repeat split; try apply set_key_written.
Qed.

(** Writing a loaded profile back puts it where the principal's first
    profile is found. *)
Lemma replace_doc_first u p p' before after :
  Forall (fun q => user q <> u) before ->
  user p' = u -> profile_id p' = profile_id p ->
  exists before' after',
    replace_doc p' (before ++ p :: after) = before' ++ p' :: after' /\
    Forall (fun q => user q <> u) before'.
Proof.
  intros Hb Hu Hid. induction Hb as [|q bf Hq Hb IH]; simpl.
  - rewrite Hid, Nat.eqb_refl. exists [], after. split; [done | constructor].
  - destruct (profile_id q =? profile_id p')%nat.
    + exists [], (bf ++ p :: after). split; [done | constructor].
    + destruct IH as (bf' & af' & -> & Hbf').
      exists (q :: bf'), af'. split; [done | by constructor].
Qed.

Lemma valid_experience_no_errors e :
  valid_experience e ->
  check (exp_title e) "Title is required."
    ++ check (exp_company e) "Company is required."
    ++ check (exp_from e) "From date is required." = [].
Proof. intros (H1 & H2 & H3). unfold check. by rewrite H1, H2, H3. Qed.

(** The verdict of the Profile model's schema on a new entry of
    [experience]. *)
Variable experience_ok : ExperienceBody -> bool.

(** The run of [add_experience] on a principal with a profile, for an
    entry the store accepts. *)
Lemma add_experience_found principal e st p :
  valid_experience e -> experience_ok e = true ->
  findOne principal st = Some p ->
  let p' := push_experience p {| exp_id := next_id st; exp_fields := e |} in
  add_experience experience_ok principal e st
  = (json (ProfileJson (Some p')),
     save_doc p' {| docs := docs st; next_id := S (next_id st) |})
  /\ findOne principal (add_experience experience_ok principal e st).2 = Some p'.
Proof.
  intros Hv Hok Hfind p'.
  assert (add_experience experience_ok principal e st
          = (json (ProfileJson (Some p')),
             save_doc p' {| docs := docs st; next_id := S (next_id st) |}))
    as Hrun.
  { unfold add_experience, save_validated.
    rewrite (valid_experience_no_errors e Hv). simpl.
    by rewrite Hfind, Hok. }
  split; [done |]. rewrite Hrun. simpl.
  destruct (proj1 (findOne_first _ _ _) Hfind) as (bf & af & Hd & Hu & Hb).
  destruct (replace_doc_first principal p p' bf af Hb Hu eq_refl)
    as (bf' & af' & Hr & Hb').
  apply findOne_first. exists bf', af'. simpl. by rewrite Hd, Hr.
Qed.

(** C9. For a principal with a profile, [add_experience] of a valid entry
    (one that passes the handler's validators and that the store accepts
    on save) puts the entry at index 0 of [experience] and moves every
    entry that was there one index up, in the response and in the stored
    profile; so after a sequence of such entries, [experience] holds them
    latest first, before the entries that were there. *)
Theorem add_experience_at_head principal st p :
  findOne principal st = Some p ->
  (forall e,
      valid_experience e -> experience_ok e = true ->
      exists p',
        (add_experience experience_ok principal e st).1
        = json (ProfileJson (Some p')) /\
        findOne principal (add_experience experience_ok principal e st).2
        = Some p' /\
        experience p' !! 0%nat
        = Some {| exp_id := next_id st; exp_fields := e |} /\
        (forall i, experience p' !! S i = experience p !! i) /\
        experience p'
        = {| exp_id := next_id st; exp_fields := e |} :: experience p)
  /\ (forall entries,
        Forall valid_experience entries ->
        Forall (fun e => experience_ok e = true) entries ->
        exists p',
          findOne principal (add_experiences experience_ok principal entries st)
          = Some p' /\
          map exp_fields (experience p')
          = rev entries ++ map exp_fields (experience p)).
Proof.
  intros Hfind. split.
  - intros e Hv Hok.
    destruct (add_experience_found principal e st p Hv Hok Hfind) as [Hrun Hst].
    eexists. rewrite Hrun at 1. split; [done |]. split; [exact Hst |]. done.
  - intros entries Hall Hoks. revert st p Hfind Hoks.
    induction Hall as [|e entries Hv Hall IH]; intros st p Hfind Hoks.
    + exists p. by split.
    + inversion Hoks as [|? ? Hok Hoks']; subst.
      destruct (add_experience_found principal e st p Hv Hok Hfind) as [_ Hst].
      destruct (IH _ _ Hst Hoks') as (p' & Hp' & Hexp).
      exists p'. split; [exact Hp' |]. rewrite Hexp. simpl.
      by rewrite <- app_assoc.
Qed.

(** *** [split] and [trim] against the specification's normal form *)

Lemma split_nonempty sep s : JS.split sep s <> [].
Proof.
  destruct s as [|c s]; simpl; [done |].
  destruct (Ascii.eqb c sep); [done |]. by destruct (JS.split sep s).
Qed.

Lemma join_commas_cons c piece rest :
  join_commas (String c piece :: rest) = String c (join_commas (piece :: rest)).
Proof. by destruct rest. Qed.

(** Joining the pieces with commas gives the input back. *)
Lemma split_join s : join_commas (JS.split comma s) = s.
Proof.
  induction s as [|c s IH]; [done |]. simpl.
  destruct (Ascii.eqb c comma) eqn:E.
  - apply Ascii.eqb_eq in E. subst c.
    pose proof (split_nonempty comma s) as Hne.
    destruct (JS.split comma s) as [|piece rest]; [done |].
    simpl in IH |- *. by rewrite IH.
  - pose proof (split_nonempty comma s) as Hne.
    destruct (JS.split comma s) as [|piece rest]; [done |].
    by rewrite join_commas_cons, IH.
Qed.

(** No piece holds a comma. *)
Lemma split_comma_free s : Forall comma_free (JS.split comma s).
Proof.
  induction s as [|c s IH]; simpl.
  - constructor; constructor.
  - destruct (Ascii.eqb c comma) eqn:E.
    + constructor; [constructor | exact IH].
    + apply Ascii.eqb_neq in E.
      destruct (JS.split comma s) as [|piece rest].
      * constructor; [| constructor]. constructor; [done | constructor].
      * inversion IH as [|? ? Hp Hr]; subst.
        constructor; [| done]. by constructor.
Qed.

Lemma split_cuts_at_commas s : cut_at_commas s (JS.split comma s).
Proof.
  split; [apply split_nonempty |]. split; [apply split_join |].
  apply split_comma_free.
Qed.

Lemma append_nil_l s : String.append EmptyString s = s.
Proof. reflexivity. Qed.

Lemma append_cons c s t :
  String.append (String c s) t = String c (String.append s t).
Proof. reflexivity. Qed.

Lemma append_snoc_nonempty s c : String.append s (String c EmptyString) <> EmptyString.
Proof. by destruct s. Qed.

Lemma trimStart_spec s :
  exists l,
    s = String.append l (JS.trimStart s) /\ blank l /\
    no_blank_at_start (JS.trimStart s).
Proof.
  induction s as [|c s IH]; simpl.
  - exists EmptyString. repeat split. constructor.
  - destruct (JS.isWhiteSpace c) eqn:E.
    + destruct IH as (l & Hs & Hl & Ht).
      exists (String c l). repeat split; [| by constructor | done].
      change (String c s = String c (String.append l (JS.trimStart s))).
      by f_equal.
    + exists EmptyString. repeat split; [constructor | done].
Qed.

Lemma trimEnd_spec s :
  exists r,
    s = String.append (JS.trimEnd s) r /\ blank r /\
    no_blank_at_end (JS.trimEnd s) /\
    (no_blank_at_start s -> no_blank_at_start (JS.trimEnd s)).
Proof.
  induction s as [|c s IH]; simpl.
  - exists EmptyString. split; [done |]. split; [constructor |].
    split; [| done].
    intros s' c Hs. symmetry in Hs. by apply append_snoc_nonempty in Hs.
  - destruct IH as (r & Hs & Hr & Hend & _).
    destruct (JS.trimEnd s) as [|d t] eqn:Et.
    + rewrite append_nil_l in Hs. subst r. destruct (JS.isWhiteSpace c) eqn:E.
      * exists (String c s). split; [done |]. split; [by constructor |].
        split; [| done].
        intros s' c' Hs'. symmetry in Hs'. by apply append_snoc_nonempty in Hs'.
      * exists s. split; [done |]. split; [done |]. split; [| done].
        intros s' c' Hs'. destruct s' as [|e s'].
        -- rewrite append_nil_l in Hs'. by injection Hs' as <-.
        -- rewrite append_cons in Hs'. injection Hs' as _ Hs'.
           symmetry in Hs'. by apply append_snoc_nonempty in Hs'.
    + exists r. split; [by rewrite append_cons, <- Hs |]. split; [done |].
      split; [| done].
      intros s' c' Hs'. destruct s' as [|e s'].
      * rewrite append_nil_l in Hs'. done.
      * rewrite append_cons in Hs'. injection Hs' as _ Hs'.
        by apply (Hend s' c').
Qed.

(** [trim] drops the white space around a piece and nothing else. *)
Lemma trim_spec s : trimmed_of s (JS.trim s).
Proof.
  unfold JS.trim.
  destruct (trimStart_spec s) as (l & Hs & Hl & Hstart).
  destruct (trimEnd_spec (JS.trimStart s)) as (r & Ht & Hr & Hend & Hkeep).
  exists l, r. repeat split; [| done | done | by apply Hkeep | done].
  by rewrite <- Ht.
Qed.

Lemma split_trim_normalized input :
  normalized_skills input (map JS.trim (JS.split comma input)).
Proof.
  exists (JS.split comma input). split; [apply split_cuts_at_commas |].
  induction (JS.split comma input) as [|piece rest IH]; simpl; constructor;
    [apply trim_spec | exact IH].
Qed.

(** C8. For a body the validators accept, whose [skills] is the string
    [input], the profile stored for the principal (created or updated)
    has as [skills] the pieces of [input] between its commas, in order,
    each without the white space around it: these are
    [input.split(",")] with [trim] mapped over it. For
    ["node, react , css"] they are ["node"], ["react"], ["css"]. *)
Theorem upsert_profile_skills principal b st input :
  accepted b ->
  body_skills b = Some input ->
  exists p,
    findOne principal (upsert_profile principal b st).2 = Some p /\
    (upsert_profile principal b st).1 = json (ProfileJson (Some p)) /\
    normalized_skills input (skills p) /\
    skills p = map JS.trim (JS.split comma input) /\
    (input = "node, react , css" -> skills p = ["node"; "react"; "css"]).
Proof.
  intros Hacc Hin.
  assert (pf_skills (build_fields principal b)
          = Some (map JS.trim (JS.split comma input))) as Hpf.
  { destruct Hacc as [_ Hs]. unfold build_fields. cbn [pf_skills].
    rewrite Hin in Hs |- *. by rewrite Hs. }
  eexists. split; [by apply upsert_profile_stored |].
  assert (skills
            match findOne principal st with
            | Some p => set_fields (build_fields principal b) p
            | None => new_profile (next_id st) (build_fields principal b)
            end = map JS.trim (JS.split comma input)) as Hskills.
  { destruct (findOne principal st); unfold set_fields, new_profile;
      cbn [skills]; by rewrite Hpf. }
  split; [| rewrite Hskills; split; [apply split_trim_normalized |]].
  - destruct (findOne principal st) as [p|] eqn:Hfind.
    + by destruct (upsert_profile_update _ _ _ _ Hacc Hfind)
        as (bf & af & _ & _ & ->).
    + by rewrite (upsert_profile_create _ _ _ Hacc Hfind).
  - split; [done |]. by intros ->.
Qed.

End ProfilesSpec.

(** *** The profile theorems on the sample data *)

Lemma upsert_profile_at_most_one_witness :
  (Profiles.profiles_of Profiles.alice
     (Profiles.upsert_all
        [(Profiles.alice, Profiles.required_only);
         (Profiles.alice, Profiles.promoted)]
        Profiles.empty) <= 1)%nat
  /\ (let st1 :=
        (Profiles.upsert_profile Profiles.alice Profiles.required_only
           Profiles.empty).2 in
      let st2 :=
        (Profiles.upsert_profile Profiles.alice Profiles.promoted st1).2 in
      exists created updated,
        Profiles.findOne Profiles.alice st1 = Some created /\
        Profiles.profile_id created = Profiles.next_id Profiles.empty /\
        Profiles.status created = Profiles.body_status Profiles.required_only /\
        Profiles.findOne Profiles.alice st2 = Some updated /\
        updated
        = Profiles.set_fields
            (Profiles.build_fields Profiles.alice Profiles.promoted) created /\
        Profiles.profile_id updated = Profiles.profile_id created /\
        map Profiles.profile_id (Profiles.docs st2)
        = map Profiles.profile_id (Profiles.docs st1) /\
        Profiles.profiles_of Profiles.alice st1 = 1%nat /\
        Profiles.profiles_of Profiles.alice st2 = 1%nat /\
        Profiles.status updated = Profiles.body_status Profiles.promoted /\
        (forall s, Profiles.body_skills Profiles.promoted = Some s ->
                   Profiles.skills updated
                   = map JS.trim (JS.split Profiles.comma s)) /\
        Profiles.written (Profiles.body_company Profiles.promoted)
          (Profiles.company created) (Profiles.company updated) /\
        Profiles.written (Profiles.body_website Profiles.promoted)
          (Profiles.website created) (Profiles.website updated) /\
        Profiles.written (Profiles.body_location Profiles.promoted)
          (Profiles.location created) (Profiles.location updated) /\
        Profiles.written (Profiles.body_bio Profiles.promoted)
          (Profiles.bio created) (Profiles.bio updated) /\
        Profiles.written (Profiles.body_githubusername Profiles.promoted)
          (Profiles.githubusername created) (Profiles.githubusername updated) /\
        Profiles.experience updated = Profiles.experience created /\
        Profiles.education updated = Profiles.education created).
Proof.
  split.
  - apply (proj1 upsert_profile_at_most_one). vm_compute. lia.
  - apply (proj2 upsert_profile_at_most_one Profiles.alice
             Profiles.required_only Profiles.promoted Profiles.empty).
    + split; reflexivity.
    + split; reflexivity.
    + reflexivity.
Defined.

Lemma upsert_profile_skills_witness :
  exists p,
    Profiles.findOne Profiles.alice
      (Profiles.upsert_profile Profiles.alice Profiles.required_only
         Profiles.one_profile).2 = Some p /\
    (Profiles.upsert_profile Profiles.alice Profiles.required_only
       Profiles.one_profile).1
    = Profiles.json (Profiles.ProfileJson (Some p)) /\
    Profiles.normalized_skills "node, react , css" (Profiles.skills p) /\
    Profiles.skills p = map JS.trim (JS.split Profiles.comma "node, react , css") /\
    ("node, react , css" = "node, react , css" ->
     Profiles.skills p = ["node"; "react"; "css"]).
Proof.
  apply (upsert_profile_skills Profiles.alice Profiles.required_only
           Profiles.one_profile "node, react , css").
  - split; reflexivity.
  - reflexivity.
Defined.

Lemma add_experience_at_head_witness :
  (exists p',
      (Profiles.add_experience Profiles.dated_experience Profiles.alice
         (Profiles.job "Junior" "2015") Profiles.one_profile).1
      = Profiles.json (Profiles.ProfileJson (Some p')) /\
      Profiles.findOne Profiles.alice
        (Profiles.add_experience Profiles.dated_experience Profiles.alice
           (Profiles.job "Junior" "2015") Profiles.one_profile).2 = Some p' /\
      Profiles.experience p' !! 0%nat
      = Some {| Profiles.exp_id := 1;
                Profiles.exp_fields := Profiles.job "Junior" "2015" |} /\
      (forall i,
          Profiles.experience p' !! S i
          = Profiles.experience Profiles.dev !! i) /\
      Profiles.experience p'
      = {| Profiles.exp_id := 1;
           Profiles.exp_fields := Profiles.job "Junior" "2015" |}
          :: Profiles.experience Profiles.dev)
  /\ (exists p',
        Profiles.findOne Profiles.alice
          (Profiles.add_experiences Profiles.dated_experience Profiles.alice
             [Profiles.job "Junior" "2015"; Profiles.job "Senior" "2019"]
             Profiles.one_profile) = Some p' /\
        map Profiles.exp_fields (Profiles.experience p')
        = rev [Profiles.job "Junior" "2015"; Profiles.job "Senior" "2019"]
            ++ map Profiles.exp_fields (Profiles.experience Profiles.dev)).
Proof.
  split.
  - apply (proj1 (add_experience_at_head Profiles.dated_experience
                    Profiles.alice Profiles.one_profile Profiles.dev eq_refl)).
    + repeat split; reflexivity.
    + reflexivity.
  - apply (proj2 (add_experience_at_head Profiles.dated_experience
                    Profiles.alice Profiles.one_profile Profiles.dev eq_refl)).
    + repeat constructor.
    + repeat constructor.
Defined.

(* ===================================================================== *)
(** ** Posts: what the handlers leave behind *)
(* ===================================================================== *)

Section PostsOutcomes.

Import Posts.

Variable castObjectId : string -> option string.

Implicit Types (db : Collection) (users : Users) (post : Post).
Implicit Types (principal id comm_id oid : string).

Lemma set_likes_same post : set_likes post (likes post) = post.
Proof. by destruct post. Qed.

Lemma set_likes_twice post l1 l2 :
  set_likes (set_likes post l1) l2 = set_likes post l2.
Proof. done. Qed.

Lemma set_comments_same post : set_comments post (comments post) = post.
Proof. by destruct post. Qed.

Lemma set_comments_twice post c1 c2 :
  set_comments (set_comments post c1) c2 = set_comments post c2.
Proof. done. Qed.

(** [like_post] either leaves the collection alone or stores the post it
    found with the principal's like in front, the principal having none. *)
Lemma like_post_outcome db principal id :
  (like_post castObjectId principal id db).2 = db
  \/ exists oid post,
      castObjectId id = Some oid /\ db !! oid = Some post /\
      (forall l, l ∈ likes post -> like_user l <> principal) /\
      like_post castObjectId principal id db
      = (json (LikesJson ({| like_user := principal |} :: likes post)),
         <[oid := set_likes post ({| like_user := principal |} :: likes post)]> db).
Proof.
  unfold like_post, findById.
  destruct (castObjectId id) as [oid|]; simpl; [| by left].
  destruct (db !! oid) as [post|] eqn:Hpost; simpl; [| by left].
  destruct (0 <? length _)%nat eqn:E; [by left |].
  right. exists oid, post. repeat split; try done.
  intros l Hin Hl.
  assert ((0 <? length (JS.filter
                          (fun like => JS.strict_eq (like_user like) principal)
                          (likes post)))%nat = true) as Hpos.
  { apply filter_length_pos. exists l. split; [done |]. by apply strict_eq_true. }
  congruence.
Qed.

(** [unlike_post] either leaves the collection alone or stores the post it
    found without the principal's first like. *)
Lemma unlike_post_outcome db principal id :
  (unlike_post castObjectId principal id db).2 = db
  \/ exists oid post before removed after,
      castObjectId id = Some oid /\ db !! oid = Some post /\
      likes post = before ++ removed :: after /\
      like_user removed = principal /\
      Forall (fun l => like_user l <> principal) before /\
      unlike_post castObjectId principal id db
      = (json (LikesJson (before ++ after)),
         <[oid := set_likes post (before ++ after)]> db).
Proof.
  unfold unlike_post, findById.
  destruct (castObjectId id) as [oid|]; simpl; [| by left].
  destruct (db !! oid) as [post|] eqn:Hpost; simpl; [| by left].
  destruct (length _ =? 0)%nat eqn:E; [by left |].
  right.
  assert (exists l, l ∈ likes post /\ like_user l = principal) as Hsome.
  { assert ((0 <? length (JS.filter
                            (fun like => JS.strict_eq (like_user like) principal)
                            (likes post)))%nat = true) as Hpos.
    { apply Nat.eqb_neq in E. apply Nat.ltb_lt. lia. }
    apply filter_length_pos in Hpos as (l & Hin & Hl).
    exists l. split; [done |]. by apply strict_eq_true. }
  destruct (indexOf_first like_user (likes post) principal Hsome)
    as (before & removed & after & Hsplit & Hr & Hb & Hidx).
  exists oid, post, before, removed, after. repeat split; try done.
  rewrite Hidx, Hsplit. by rewrite splice_one.
Qed.

(** [delete_comment] either leaves the collection alone or stores the
    post it found without the principal's first comment. *)
Lemma delete_comment_outcome db principal id comm_id :
  (delete_comment castObjectId principal id comm_id db).2 = db
  \/ exists oid post before removed after,
      castObjectId id = Some oid /\ db !! oid = Some post /\
      comments post = before ++ removed :: after /\
      comment_user removed = principal /\
      Forall (fun c => comment_user c <> principal) before /\
      delete_comment castObjectId principal id comm_id db
      = (json (CommentsJson (before ++ after)),
         <[oid := set_comments post (before ++ after)]> db).
Proof.
  unfold delete_comment, findById.
  destruct (castObjectId id) as [oid|]; simpl; [| by left].
  destruct (db !! oid) as [post|] eqn:Hpost; simpl; [| by left].
  destruct (JS.find _ (comments post)) as [hit|] eqn:Hfind; simpl; [| by left].
  destruct (JS.strict_eq (comment_user hit) principal) eqn:Hu; simpl; [| by left].
  right. apply strict_eq_true in Hu.
  apply find_some in Hfind as [Hin _]. apply list_elem_of_In in Hin.
  destruct (indexOf_first comment_user (comments post) principal)
    as (before & removed & after & Hsplit & Hr & Hb & Hidx); [by eauto |].
  exists oid, post, before, removed, after. repeat split; try done.
  rewrite Hidx, Hsplit. by rewrite splice_one.
Qed.

(** [delete_post] either leaves the collection alone or removes a post of
    the principal's. *)
Lemma delete_post_outcome db principal id :
  (delete_post castObjectId principal id db).2 = db
  \/ exists oid post,
      castObjectId id = Some oid /\ db !! oid = Some post /\
      post_user post = principal /\
      (delete_post castObjectId principal id db).2 = delete oid db.
Proof.
  unfold delete_post, findById.
  destruct (castObjectId id) as [oid|]; simpl; [| by left].
  destruct (db !! oid) as [post|] eqn:Hpost; simpl; [| by left].
  destruct (JS.strict_eq (post_user post) principal) eqn:Hu; simpl; [| by left].
  right. apply strict_eq_true in Hu. by exists oid, post.
Qed.

Lemma get_post_reads db id : (get_post castObjectId id db).2 = db.
Proof.
  unfold get_post, findById.
  destruct (castObjectId id) as [oid|]; simpl; [| done].
  by destruct (db !! oid).
Qed.

(** [create_post] either leaves the collection alone or stores a post
    without likes or comments. *)
Lemma create_post_outcome users db principal text oid now :
  (create_post castObjectId principal text oid now users db).2 = db
  \/ exists newPost,
      likes newPost = [] /\ comments newPost = [] /\
      (create_post castObjectId principal text oid now users db).2
      = <[oid := newPost]> db.
Proof.
  unfold create_post, findUserById.
  destruct (negb (bool_decide _)); [by left |].
  destruct (castObjectId principal) as [uoid|]; simpl; [| by left].
  destruct (users !! uoid) as [user|]; simpl; [| by left].
  right. eexists (Build_Post _ _ _ _ _ [] []). repeat split; reflexivity.
Qed.

(** [add_comment] either leaves the collection alone or stores the post
    it found with one more comment in front. *)
Lemma add_comment_outcome users db principal id text cid now :
  (add_comment castObjectId principal id text cid now users db).2 = db
  \/ exists oid post newComment,
      castObjectId id = Some oid /\ db !! oid = Some post /\
      (add_comment castObjectId principal id text cid now users db).2
      = <[oid := set_comments post (newComment :: comments post)]> db.
Proof.
  unfold add_comment, findUserById, findById.
  destruct (negb (bool_decide _)); [by left |].
  destruct (castObjectId principal) as [uoid|]; simpl; [| by left].
  destruct (castObjectId id) as [oid|]; simpl; [| by left].
  destruct (users !! uoid) as [user|]; simpl; [| by left].
  destruct (db !! oid) as [post|] eqn:Hpost; simpl; [| by left].
  right. eexists oid, post, _. repeat split; first [done | reflexivity].
Qed.

End PostsOutcomes.

Section PostsRuns.

Import Posts.

Variable castObjectId : string -> option string.

Implicit Types (db : Collection) (users : Users) (post : Post).
Implicit Types (principal id comm_id oid : string).

(** [indexOf] over the keys of an array split at its first element with
    the key. *)
Lemma indexOf_at {A} (key : A -> string) (before after : list A) (hit : A) u :
  Forall (fun y => key y <> u) before -> key hit = u ->
  JS.indexOf (map key (before ++ hit :: after)) u = Z.of_nat (length before).
Proof.
  intros Hb Hh. unfold JS.indexOf.
  enough (forall i, JS.indexOf_from (map key (before ++ hit :: after)) u i
                    = i + Z.of_nat (length before)) as H by (rewrite H; lia).
  induction Hb as [|y bf Hy Hb IH]; intros i; simpl.
  - apply strict_eq_true in Hh. rewrite Hh. lia.
  - apply strict_eq_false in Hy. rewrite Hy, IH. lia.
Qed.

(** The run of [like_post] by a principal who has not liked the post. *)
Lemma like_post_fresh db principal id oid post :
  castObjectId id = Some oid -> db !! oid = Some post ->
  (forall l, l ∈ likes post -> like_user l <> principal) ->
  like_post castObjectId principal id db
  = (json (LikesJson ({| like_user := principal |} :: likes post)),
     <[oid := set_likes post ({| like_user := principal |} :: likes post)]> db).
Proof.
  intros Hcast Hpost Hnone. unfold like_post.
  rewrite (findById_found _ _ _ _ Hcast), Hpost. simpl.
  destruct (0 <? length _)%nat eqn:E; [| done].
  apply filter_length_pos in E as (l & Hin & Hl).
  apply strict_eq_true in Hl. by destruct (Hnone l Hin).
Qed.

(** The run of [unlike_post] on likes split at the principal's first. *)
Lemma unlike_post_at db principal id oid post before removed after :
  castObjectId id = Some oid -> db !! oid = Some post ->
  likes post = before ++ removed :: after ->
  like_user removed = principal ->
  Forall (fun l => like_user l <> principal) before ->
  unlike_post castObjectId principal id db
  = (json (LikesJson (before ++ after)),
     <[oid := set_likes post (before ++ after)]> db).
Proof.
  intros Hcast Hpost Hsplit Hr Hb. unfold unlike_post.
  rewrite (findById_found _ _ _ _ Hcast), Hpost. simpl.
  destruct (length _ =? 0)%nat eqn:E.
  { pose proof (proj1 (filter_length_zero _ (likes post)) E removed) as Hf.
    simpl in Hf. rewrite Hsplit in Hf.
    apply strict_eq_true in Hr. rewrite Hr in Hf.
    discriminate Hf. apply elem_of_app. right. left. }
  rewrite Hsplit, (indexOf_at like_user before after removed principal Hb Hr).
  by rewrite splice_one.
Qed.

(** The run of [delete_comment] on comments split at the one named, when
    it is the principal's first. *)
Lemma delete_comment_at db principal id comm_id oid post before c after :
  castObjectId id = Some oid -> db !! oid = Some post ->
  comments post = before ++ c :: after ->
  comment_id c = comm_id -> comment_user c = principal ->
  Forall (fun x => comment_id x <> comm_id /\ comment_user x <> principal) before ->
  delete_comment castObjectId principal id comm_id db
  = (json (CommentsJson (before ++ after)),
     <[oid := set_comments post (before ++ after)]> db).
Proof.
  intros Hcast Hpost Hsplit Hid Hu Hb. unfold delete_comment.
  rewrite (findById_found _ _ _ _ Hcast), Hpost. simpl.
  assert (JS.find (fun comment => JS.strict_eq (comment_id comment) comm_id)
            (comments post) = Some c) as ->.
  { apply find_first. exists before, after.
    repeat split; [done | by apply strict_eq_true |].
    eapply Forall_impl; [exact Hb |]. intros x [Hx _]. by apply strict_eq_false. }
  apply strict_eq_true in Hu as Hu'. rewrite Hu'. simpl.
  rewrite Hsplit, (indexOf_at comment_user before after c principal); [| | done].
  - by rewrite splice_one.
  - eapply Forall_impl; [exact Hb |]. by intros x [_ Hx].
Qed.

(** The run of [add_comment] that finds its user and its post. *)
Lemma add_comment_found users db principal id text cid now uoid user oid post :
  JS.truthy text = true ->
  castObjectId principal = Some uoid -> users !! uoid = Some user ->
  castObjectId id = Some oid -> db !! oid = Some post ->
  add_comment castObjectId principal id text cid now users db
  = (Replied
       (json (CommentsJson
                ({| comment_id := cid; comment_text := default "" text;
                    comment_name := user_name user;
                    comment_avatar := user_avatar user;
                    comment_user := uoid; comment_date := now |}
                   :: comments post))),
     <[oid := set_comments post
                ({| comment_id := cid; comment_text := default "" text;
                    comment_name := user_name user;
                    comment_avatar := user_avatar user;
                    comment_user := uoid; comment_date := now |}
                   :: comments post)]> db).
Proof.
  intros Ht Hu Huser Hcast Hpost. unfold add_comment, check, findUserById.
  rewrite Ht. simpl. rewrite Hu. simpl.
  rewrite (findById_found _ _ _ _ Hcast). simpl. rewrite Huser, Hpost. done.
Qed.

(** The run of [create_post] that finds its user. *)
Lemma create_post_found users db principal text oid now uoid user :
  JS.truthy text = true ->
  castObjectId principal = Some uoid -> users !! uoid = Some user ->
  create_post castObjectId principal text oid now users db
  = (Replied
       (json (PostJson
                {| post_text := default "" text; post_name := user_name user;
                   post_avatar := user_avatar user; post_user := uoid;
                   post_date := now; likes := []; comments := [] |})),
     <[oid := {| post_text := default "" text; post_name := user_name user;
                 post_avatar := user_avatar user; post_user := uoid;
                 post_date := now; likes := []; comments := [] |}]> db).
Proof.
  intros Ht Hu Huser. unfold create_post, check, findUserById.
  rewrite Ht. simpl. rewrite Hu. simpl. by rewrite Huser.
Qed.

End PostsRuns.

(* ===================================================================== *)
(** ** Posts: round trips, invariants and what a principal cannot do *)
(* ===================================================================== *)

Section PostsLaws.

Import Posts.

Variable castObjectId : string -> option string.

Implicit Types (db : Collection) (users : Users) (post : Post).
Implicit Types (principal id comm_id oid : string).

(** X1. Unliking a post one has just liked undoes the like: the response
    holds the likes the post had, and the collection is the one before the
    like. *)
Theorem like_then_unlike_restores db principal id oid post :
  castObjectId id = Some oid -> db !! oid = Some post ->
  (forall l, l ∈ likes post -> like_user l <> principal) ->
  unlike_post castObjectId principal id
    (like_post castObjectId principal id db).2
  = (json (LikesJson (likes post)), db).
Proof.
  intros Hcast Hpost Hnone.
  rewrite (like_post_fresh _ _ _ _ _ _ Hcast Hpost Hnone). simpl.
  rewrite (unlike_post_at castObjectId _ principal id oid
             (set_likes post ({| like_user := principal |} :: likes post))
             [] {| like_user := principal |} (likes post) Hcast
             (lookup_insert_eq _ _ _) eq_refl eq_refl (List.Forall_nil _)).
  simpl. rewrite set_likes_twice, set_likes_same, insert_insert_eq.
  by rewrite (insert_id _ _ _ Hpost).
Qed.

Lemma unique_likes_insert db oid post :
  unique_likes db -> NoDup (map like_user (likes post)) ->
  unique_likes (<[oid := post]> db).
Proof.
  intros Hdb Hpost oid' post' Hl.
  apply lookup_insert_Some in Hl as [[_ <-] | [_ Hl]]; [done |].
  by apply (Hdb oid').
Qed.

Lemma unique_likes_delete db oid : unique_likes db -> unique_likes (delete oid db).
Proof.
  intros Hdb oid' post' Hl. apply lookup_delete_Some in Hl as [_ Hl].
  by apply (Hdb oid').
Qed.

Lemma unique_likes_handle users req db :
  unique_likes db -> unique_likes (handle castObjectId users req db).
Proof.
  intros Hdb. destruct req as [principal text oid now | id | principal id
    | principal id | principal id | principal id text cid now
    | principal id comm_id]; simpl.
  - destruct (create_post_outcome castObjectId users db principal text oid now)
      as [-> | (newPost & Hl & _ & ->)]; [done |].
    apply unique_likes_insert; [done |]. rewrite Hl. constructor.
  - by rewrite get_post_reads.
  - destruct (delete_post_outcome castObjectId db principal id)
      as [-> | (oid & post & _ & _ & _ & ->)]; [done |].
    by apply unique_likes_delete.
  - destruct (like_post_outcome castObjectId db principal id)
      as [-> | (oid & post & _ & Hpost & Hnone & ->)]; [done |].
    apply unique_likes_insert; [done |]. simpl. constructor.
    + intros Hin. apply list_elem_of_fmap in Hin as (l & Hl & Hin).
      by apply (Hnone l Hin).
    + exact (Hdb oid post Hpost).
  - destruct (unlike_post_outcome castObjectId db principal id)
      as [-> | (oid & post & bf & rm & af & _ & Hpost & Hsplit & _ & _ & ->)];
      [done |].
    apply unique_likes_insert; [done |]. simpl.
    pose proof (Hdb oid post Hpost) as Hnd. rewrite Hsplit in Hnd.
    rewrite map_app in Hnd |- *. simpl in Hnd.
    apply NoDup_app in Hnd as (Hb & Hdisj & Ha).
    apply NoDup_cons in Ha as [_ Ha].
    apply NoDup_app. split; [done | split; [| done]].
    intros x Hx Hxa. apply (Hdisj x Hx). by right.
  - destruct (add_comment_outcome castObjectId users db principal id text cid now)
      as [-> | (oid & post & c & _ & Hpost & ->)]; [done |].
    apply unique_likes_insert; [done |]. exact (Hdb oid post Hpost).
  - destruct (delete_comment_outcome castObjectId db principal id comm_id)
      as [-> | (oid & post & bf & rm & af & _ & Hpost & _ & _ & _ & ->)];
      [done |].
    apply unique_likes_insert; [done |]. exact (Hdb oid post Hpost).
Qed.

(** X2. No sequence of requests to the posts API gives a post two likes
    of one user: if every post has at most one like per user, so has
    every post after the requests, whoever makes them and whatever they
    are. *)
Theorem likes_stay_unique users reqs db :
  unique_likes db -> unique_likes (handle_all castObjectId users reqs db).
Proof.
  revert db. induction reqs as [|req reqs IH]; intros db Hdb; [done |].
  unfold handle_all. simpl. apply IH. by apply unique_likes_handle.
Qed.

(** X3. On a post with at most one like per user, a successful unlike
    leaves no like of the principal and keeps the likes of everyone else,
    so the principal can like the post again. *)
Theorem unlike_clears_the_like db principal id oid post :
  castObjectId id = Some oid -> db !! oid = Some post ->
  NoDup (map like_user (likes post)) ->
  (exists l, l ∈ likes post /\ like_user l = principal) ->
  exists post',
    (unlike_post castObjectId principal id db).2 !! oid = Some post' /\
    (forall l, l ∈ likes post' -> like_user l <> principal) /\
    (forall l, like_user l <> principal -> l ∈ likes post' <-> l ∈ likes post) /\
    status (like_post castObjectId principal id
              (unlike_post castObjectId principal id db).2).1 = OK.
Proof.
  intros Hcast Hpost Hnd Hsome.
  destruct (indexOf_first like_user (likes post) principal Hsome)
    as (bf & rm & af & Hsplit & Hr & Hb & _).
  rewrite (unlike_post_at castObjectId db principal id oid post bf rm af
             Hcast Hpost Hsplit Hr Hb). simpl.
  rewrite Hsplit, map_app in Hnd. simpl in Hnd.
  apply NoDup_app in Hnd as (_ & _ & Ha). apply NoDup_cons in Ha as [Hrm _].
  assert (forall l, l ∈ bf ++ af -> like_user l <> principal) as Hnone.
  { intros l Hin Hl. apply elem_of_app in Hin as [Hin | Hin].
    - by apply (proj1 (Forall_forall _ _) Hb l Hin).
    - apply Hrm. rewrite Hr, <- Hl. by apply list_elem_of_fmap_2. }
  exists (set_likes post (bf ++ af)). rewrite lookup_insert_eq.
  split; [done |]. split; [exact Hnone |]. split.
  - intros l Hl. simpl. rewrite Hsplit, !elem_of_app, elem_of_cons.
    split; [tauto |]. intros [? | [-> | ?]]; [tauto | done | tauto].
  - rewrite (like_post_fresh castObjectId _ principal id oid
               (set_likes post (bf ++ af)) Hcast (lookup_insert_eq _ _ _) Hnone).
    done.
Qed.

(** X4. Whatever [delete_comment] answers, it removes no comment of
    another author: on every post the comments the principal did not
    write are the same, in the same order, and likes, text and owner are
    untouched. *)
Theorem delete_comment_keeps_others db principal id comm_id oid0 post0 :
  db !! oid0 = Some post0 ->
  exists post0',
    (delete_comment castObjectId principal id comm_id db).2 !! oid0
    = Some post0' /\
    comments_of_others principal post0' = comments_of_others principal post0 /\
    likes post0' = likes post0 /\ post_user post0' = post_user post0 /\
    post_text post0' = post_text post0.
Proof.
  intros Hpost0.
  destruct (delete_comment_outcome castObjectId db principal id comm_id)
    as [-> | (oid & post & bf & rm & af & _ & Hpost & Hsplit & Hr & _ & ->)].
  - by exists post0.
  - simpl. destruct (decide (oid = oid0)) as [-> | Hne].
    + rewrite lookup_insert_eq. eexists. split; [done |].
      rewrite Hpost in Hpost0. injection Hpost0 as <-.
      repeat split. unfold comments_of_others. simpl. rewrite Hsplit.
      rewrite !List.filter_app. simpl.
      apply strict_eq_true in Hr. by rewrite Hr.
    + rewrite lookup_insert_ne by done. by exists post0.
Qed.

(** X5. Deleting the comment that is one's earliest on a post removes
    that comment and no other: when no comment before the one named has
    its identity or the principal as author, the comments left are those
    before and after it. *)
Theorem delete_earliest_comment_removes_it
    db principal id comm_id oid post before c after :
  castObjectId id = Some oid -> db !! oid = Some post ->
  comments post = before ++ c :: after ->
  comment_id c = comm_id -> comment_user c = principal ->
  Forall (fun x => comment_id x <> comm_id /\ comment_user x <> principal) before ->
  delete_comment castObjectId principal id comm_id db
  = (json (CommentsJson (before ++ after)),
     <[oid := set_comments post (before ++ after)]> db)
  /\ (NoDup (map comment_id (comments post)) ->
      forall x, x ∈ before ++ after <->
                x ∈ comments post /\ comment_id x <> comm_id).
Proof.
  intros Hcast Hpost Hsplit Hid Hu Hb. split.
  - by apply (delete_comment_at castObjectId db principal id comm_id oid post
                before c after).
  - intros Hnd x. rewrite Hsplit, map_app in Hnd. simpl in Hnd.
    apply NoDup_app in Hnd as (_ & _ & Ha). apply NoDup_cons in Ha as [Hc _].
    rewrite Hsplit, !elem_of_app, elem_of_cons. split.
    + intros [Hx | Hx].
      * split; [tauto |]. by apply (proj1 (Forall_forall _ _) Hb x Hx).
      * split; [tauto |]. intros Hx'. apply Hc. rewrite Hid, <- Hx'.
        by apply list_elem_of_fmap_2.
    + intros [[Hx | [-> | Hx]] Hne]; [tauto | done | tauto].
Qed.

(** X6. A comment can be taken back by the one who wrote it: deleting,
    under the identity it was given, the comment one has just added
    answers with the comments the post had and leaves the collection as it
    was before the comment. *)
Theorem add_then_delete_comment_restores
    users db principal id text cid now user oid post :
  JS.truthy text = true ->
  castObjectId principal = Some principal -> users !! principal = Some user ->
  castObjectId id = Some oid -> db !! oid = Some post ->
  delete_comment castObjectId principal id cid
    (add_comment castObjectId principal id text cid now users db).2
  = (json (CommentsJson (comments post)), db).
Proof.
  intros Ht Hu Huser Hcast Hpost.
  rewrite (add_comment_found castObjectId users db principal id text cid now
             principal user oid post Ht Hu Huser Hcast Hpost). simpl.
  rewrite (delete_comment_at castObjectId _ principal id cid oid
             (set_comments post
                ({| comment_id := cid; comment_text := default "" text;
                    comment_name := user_name user;
                    comment_avatar := user_avatar user;
                    comment_user := principal; comment_date := now |}
                   :: comments post))
             [] _ (comments post) Hcast (lookup_insert_eq _ _ _)
             eq_refl eq_refl eq_refl (List.Forall_nil _)).
  simpl. rewrite set_comments_twice, set_comments_same, insert_insert_eq.
  by rewrite (insert_id _ _ _ Hpost).
Qed.

(** X7. A post that was created can be read back: [get_post] under the
    new identity answers with the post, which has the text sent, the name
    and avatar of the principal's User record, the principal as owner, and
    neither likes nor comments; the other posts are the ones there
    were. *)
Theorem create_then_get_post users db principal text oid now uoid user id :
  JS.truthy text = true ->
  castObjectId principal = Some uoid -> users !! uoid = Some user ->
  castObjectId id = Some oid ->
  let db' := (create_post castObjectId principal text oid now users db).2 in
  exists created,
    (create_post castObjectId principal text oid now users db).1
    = Replied (json (PostJson created)) /\
    get_post castObjectId id db' = (json (PostJson created), db') /\
    Some (post_text created) = text /\
    post_name created = user_name user /\
    post_avatar created = user_avatar user /\
    post_user created = uoid /\
    likes created = [] /\ comments created = [] /\
    (forall oid', oid' <> oid -> db' !! oid' = db !! oid').
Proof.
  intros Ht Hu Huser Hcast db'. subst db'.
  rewrite (create_post_found castObjectId users db principal text oid now
             uoid user Ht Hu Huser). simpl.
  eexists. split; [done |]. split.
  - unfold get_post. rewrite (findById_found _ _ _ _ Hcast). simpl.
    by rewrite lookup_insert_eq.
  - simpl. repeat split.
    + destruct text as [t|]; [done | discriminate Ht].
    + intros oid' Hne. by rewrite lookup_insert_ne.
Qed.

(** X8. The owner can take a post back: deleting a post one has just
    created, under an identity no document had, leaves the collection as
    it was before the post. *)
Theorem create_then_delete_post_restores
    users db principal text oid now user id :
  JS.truthy text = true ->
  castObjectId principal = Some principal -> users !! principal = Some user ->
  castObjectId id = Some oid -> db !! oid = None ->
  delete_post castObjectId principal id
    (create_post castObjectId principal text oid now users db).2
  = (json (Msg "Post Removed."), db).
Proof.
  intros Ht Hu Huser Hcast Hfresh.
  rewrite (create_post_found castObjectId users db principal text oid now
             principal user Ht Hu Huser). simpl.
  unfold delete_post. rewrite (findById_found _ _ _ _ Hcast). simpl.
  rewrite lookup_insert_eq. simpl. rewrite strict_eq_refl. simpl.
  unfold remove. by rewrite delete_insert_id.
Qed.

(** X9. [delete_post] removes nothing but a post of the principal's: a
    post with another owner is still there afterwards, unchanged,
    whatever identifier the request names. *)
Theorem delete_post_spares_other_owners db principal id oid0 post0 :
  db !! oid0 = Some post0 -> post_user post0 <> principal ->
  (delete_post castObjectId principal id db).2 !! oid0 = Some post0.
Proof.
  intros Hpost0 Hne.
  destruct (delete_post_outcome castObjectId db principal id)
    as [-> | (oid & post & _ & Hpost & Hu & ->)]; [done |].
  destruct (decide (oid = oid0)) as [-> | Hd].
  - rewrite Hpost in Hpost0. injection Hpost0 as <-. done.
  - by rewrite lookup_delete_ne.
Qed.

(** X10. Nothing is written without a text, a user and, for a comment, a
    post. With an empty or missing text both handlers answer with the
    validation error; with a text but no User record of the principal
    both answer with the server failure; with a text but an identifier
    that refers to no post, [add_comment] answers with the server
    failure, not with NotFound. The collection is unchanged each time. *)
Theorem writes_need_text_user_and_post
    users db principal id text oid cid now :
  (JS.truthy text = false ->
   create_post castObjectId principal text oid now users db
   = (Rejected ["Post text is required."], db) /\
   add_comment castObjectId principal id text cid now users db
   = (Rejected ["Comment text is required."], db))
  /\ (JS.truthy text = true ->
      match castObjectId principal with
      | Some uoid => users !! uoid = None
      | None => True
      end ->
      create_post castObjectId principal text oid now users db
      = (Replied (send ServerError "Server Error."), db) /\
      add_comment castObjectId principal id text cid now users db
      = (Replied (send ServerError "Server Error."), db))
  /\ (JS.truthy text = true -> no_such_post castObjectId db id ->
      add_comment castObjectId principal id text cid now users db
      = (Replied (send ServerError "Server Error."), db)).
Proof.
  unfold create_post, add_comment, check, findUserById. split; [| split].
  - intros Ht. by rewrite Ht.
  - intros Ht Hu. rewrite Ht. simpl.
    destruct (castObjectId principal) as [uoid|]; simpl; [| done].
    rewrite Hu. unfold findById.
    destruct (castObjectId id) as [oid'|]; by simpl.
  - intros Ht Hmiss. rewrite Ht. simpl.
    destruct (castObjectId principal) as [uoid|]; simpl; [| done].
    destruct (findById_missing castObjectId db id Hmiss) as [-> | [oid' ->]];
      simpl; [done |].
    by destruct (users !! uoid).
Qed.

End PostsLaws.

(** *** The post laws on the sample data *)

Lemma sample_likes_unique : Posts.unique_likes Posts.sample_db.
Proof.
  intros oid post H. unfold Posts.sample_db in H.
  apply lookup_insert_Some in H as [[_ <-] | [_ H]].
  - simpl. apply NoDup_cons. split; [| apply NoDup_singleton].
    intros Hin. apply list_elem_of_singleton in Hin. discriminate Hin.
  - apply lookup_singleton_Some in H as [_ <-]. constructor.
Defined.

Lemma like_then_unlike_restores_witness :
  Posts.unlike_post Posts.hexObjectId Posts.bob Posts.post1
    (Posts.like_post Posts.hexObjectId Posts.bob Posts.post1 Posts.sample_db).2
  = (Posts.json (Posts.LikesJson []), Posts.sample_db).
Proof.
  apply (like_then_unlike_restores Posts.hexObjectId Posts.sample_db Posts.bob
           Posts.post1 Posts.post1 Posts.hello eq_refl eq_refl).
  intros l Hl. by apply elem_of_nil in Hl.
Defined.

Lemma likes_stay_unique_witness :
  Posts.unique_likes
    (Posts.handle_all Posts.hexObjectId Posts.sample_users
       [Posts.LikePost Posts.alice Posts.post1;
        Posts.LikePost Posts.alice Posts.post1;
        Posts.UnlikePost Posts.bob Posts.post2;
        Posts.LikePost Posts.alice Posts.post2;
        Posts.AddComment Posts.bob Posts.post2 (Some "hi") Posts.c4 2]
       Posts.sample_db).
Proof.
  apply (likes_stay_unique Posts.hexObjectId). exact sample_likes_unique.
Defined.

Lemma unlike_clears_the_like_witness :
  exists post',
    (Posts.unlike_post Posts.hexObjectId Posts.alice Posts.post2
       Posts.sample_db).2 !! Posts.post2 = Some post' /\
    (forall l, l ∈ Posts.likes post' -> Posts.like_user l <> Posts.alice) /\
    (forall l, Posts.like_user l <> Posts.alice ->
               l ∈ Posts.likes post' <-> l ∈ Posts.likes Posts.liked) /\
    Posts.status
      (Posts.like_post Posts.hexObjectId Posts.alice Posts.post2
         (Posts.unlike_post Posts.hexObjectId Posts.alice Posts.post2
            Posts.sample_db).2).1 = OK.
Proof.
  apply (unlike_clears_the_like Posts.hexObjectId Posts.sample_db Posts.alice
           Posts.post2 Posts.post2 Posts.liked eq_refl eq_refl).
  - exact (sample_likes_unique Posts.post2 Posts.liked eq_refl).
  - exists {| Posts.like_user := Posts.alice |}.
    split; [right; left | reflexivity].
Defined.

Lemma delete_comment_keeps_others_witness :
  exists post0',
    (Posts.delete_comment Posts.hexObjectId Posts.bob Posts.post1
       (Posts.comment_id Posts.c3) Posts.sample_db).2 !! Posts.post1
    = Some post0' /\
    Posts.comments_of_others Posts.bob post0'
    = Posts.comments_of_others Posts.bob Posts.hello /\
    Posts.likes post0' = Posts.likes Posts.hello /\
    Posts.post_user post0' = Posts.post_user Posts.hello /\
    Posts.post_text post0' = Posts.post_text Posts.hello.
Proof.
  apply (delete_comment_keeps_others Posts.hexObjectId Posts.sample_db
           Posts.bob Posts.post1 (Posts.comment_id Posts.c3) Posts.post1
           Posts.hello).
  reflexivity.
Defined.

Lemma delete_earliest_comment_removes_it_witness :
  Posts.delete_comment Posts.hexObjectId Posts.alice Posts.post1
    (Posts.comment_id Posts.c2) Posts.sample_db
  = (Posts.json (Posts.CommentsJson ([Posts.c1] ++ [Posts.c3])),
     <[Posts.post1 := Posts.set_comments Posts.hello ([Posts.c1] ++ [Posts.c3])]>
       Posts.sample_db)
  /\ (NoDup (map Posts.comment_id (Posts.comments Posts.hello)) ->
      forall x, x ∈ [Posts.c1] ++ [Posts.c3] <->
                x ∈ Posts.comments Posts.hello /\
                Posts.comment_id x <> Posts.comment_id Posts.c2).
Proof.
  apply (delete_earliest_comment_removes_it Posts.hexObjectId Posts.sample_db
           Posts.alice Posts.post1 (Posts.comment_id Posts.c2) Posts.post1
           Posts.hello [Posts.c1] Posts.c2 [Posts.c3]
           eq_refl eq_refl eq_refl eq_refl eq_refl).
  constructor; [| constructor]. split; vm_compute; congruence.
Defined.

Lemma add_then_delete_comment_restores_witness :
  Posts.delete_comment Posts.hexObjectId Posts.bob Posts.post1 Posts.c4
    (Posts.add_comment Posts.hexObjectId Posts.bob Posts.post1 (Some "third")
       Posts.c4 7 Posts.sample_users Posts.sample_db).2
  = (Posts.json (Posts.CommentsJson (Posts.comments Posts.hello)),
     Posts.sample_db).
Proof.
  apply (add_then_delete_comment_restores Posts.hexObjectId Posts.sample_users
           Posts.sample_db Posts.bob Posts.post1 (Some "third") Posts.c4 7
           {| user_name := "Bob"; user_avatar := "b.png" |} Posts.post1
           Posts.hello eq_refl eq_refl eq_refl eq_refl eq_refl).
Defined.

Lemma create_then_get_post_witness :
  let db' :=
    (Posts.create_post Posts.hexObjectId Posts.bob (Some "news") Posts.post3 9
       Posts.sample_users Posts.sample_db).2 in
  exists created,
    (Posts.create_post Posts.hexObjectId Posts.bob (Some "news") Posts.post3 9
       Posts.sample_users Posts.sample_db).1
    = Posts.Replied (Posts.json (Posts.PostJson created)) /\
    Posts.get_post Posts.hexObjectId Posts.post3 db'
    = (Posts.json (Posts.PostJson created), db') /\
    Some (Posts.post_text created) = Some "news" /\
    Posts.post_name created = "Bob" /\
    Posts.post_avatar created = "b.png" /\
    Posts.post_user created = Posts.bob /\
    Posts.likes created = [] /\ Posts.comments created = [] /\
    (forall oid', oid' <> Posts.post3 -> db' !! oid' = Posts.sample_db !! oid').
Proof.
  apply (create_then_get_post Posts.hexObjectId Posts.sample_users
           Posts.sample_db Posts.bob (Some "news") Posts.post3 9 Posts.bob
           {| user_name := "Bob"; user_avatar := "b.png" |} Posts.post3
           eq_refl eq_refl eq_refl eq_refl).
Defined.

Lemma create_then_delete_post_restores_witness :
  Posts.delete_post Posts.hexObjectId Posts.bob Posts.post3
    (Posts.create_post Posts.hexObjectId Posts.bob (Some "news") Posts.post3 9
       Posts.sample_users Posts.sample_db).2
  = (Posts.json (Posts.Msg "Post Removed."), Posts.sample_db).
Proof.
  apply (create_then_delete_post_restores Posts.hexObjectId Posts.sample_users
           Posts.sample_db Posts.bob (Some "news") Posts.post3 9
           {| user_name := "Bob"; user_avatar := "b.png" |} Posts.post3
           eq_refl eq_refl eq_refl eq_refl eq_refl).
Defined.

Lemma delete_post_spares_other_owners_witness :
  (Posts.delete_post Posts.hexObjectId Posts.bob Posts.post1 Posts.sample_db).2
    !! Posts.post1 = Some Posts.hello.
Proof.
  apply (delete_post_spares_other_owners Posts.hexObjectId Posts.sample_db
           Posts.bob Posts.post1 Posts.post1 Posts.hello eq_refl).
  vm_compute. congruence.
Defined.

Lemma writes_need_text_user_and_post_witness :
  Posts.create_post Posts.hexObjectId Posts.bob (Some "") Posts.post3 9
    Posts.sample_users Posts.sample_db
  = (Posts.Rejected ["Post text is required."], Posts.sample_db)
  /\ Posts.add_comment Posts.hexObjectId Posts.post3 Posts.post1 (Some "hi")
       Posts.c4 9 Posts.sample_users Posts.sample_db
     = (Posts.Replied (Posts.send ServerError "Server Error."), Posts.sample_db)
  /\ Posts.add_comment Posts.hexObjectId Posts.bob Posts.post3 (Some "hi")
       Posts.c4 9 Posts.sample_users Posts.sample_db
     = (Posts.Replied (Posts.send ServerError "Server Error."), Posts.sample_db).
Proof.
  pose proof (writes_need_text_user_and_post Posts.hexObjectId
                Posts.sample_users Posts.sample_db Posts.bob Posts.post3
                (Some "") Posts.post3 Posts.c4 9) as (Hempty & _ & _).
  pose proof (writes_need_text_user_and_post Posts.hexObjectId
                Posts.sample_users Posts.sample_db Posts.post3 Posts.post1
                (Some "hi") Posts.post3 Posts.c4 9) as (_ & Huser & _).
  pose proof (writes_need_text_user_and_post Posts.hexObjectId
                Posts.sample_users Posts.sample_db Posts.bob Posts.post3
                (Some "hi") Posts.post3 Posts.c4 9) as (_ & _ & Hpost).
  split; [exact (proj1 (Hempty eq_refl)) |].
  split; [exact (proj2 (Huser eq_refl eq_refl)) | exact (Hpost eq_refl eq_refl)].
Defined.

(* ===================================================================== *)
(** ** Profiles: upsert, reads and the account *)
(* ===================================================================== *)

Section ProfilesLaws.

Import Profiles.

Variable castObjectId : string -> option string.

Implicit Types (st : Store) (users : Users) (p q : Profile) (b : ProfileBody).
Implicit Types (principal u : string) (pf : ProfileFields).

Lemma set_key_twice {A} (new old : option A) :
  set_key new (set_key new old) = set_key new old.
Proof. by destruct new. Qed.

Lemma set_key_same {A} (new : option A) : set_key new new = new.
Proof. by destruct new. Qed.

Lemma set_fields_twice pf p : set_fields pf (set_fields pf p) = set_fields pf p.
Proof.
  unfold set_fields. simpl. rewrite !set_key_twice.
  by destruct (pf_skills pf).
Qed.

Lemma set_fields_new pf i : set_fields pf (new_profile i pf) = new_profile i pf.
Proof.
  unfold set_fields, new_profile. simpl. rewrite !set_key_same.
  by destruct (pf_skills pf).
Qed.

Lemma set_fields_user pf p : user (set_fields pf p) = pf_user pf.
Proof. done. Qed.

(** X11. Sending the same body again changes nothing: the second
    [upsert_profile] answers as the first did and leaves the collection
    the first left, whether the first created the profile, updated it or
    was turned down. *)
Theorem upsert_profile_again principal b st :
  upsert_profile principal b (upsert_profile principal b st).2
  = upsert_profile principal b st.
Proof.
  destruct (bool_decide (check (body_status b) "Status is required."
                           ++ check (body_skills b) "Skills is required." = []))
    eqn:Herr.
  - assert (accepted b) as Hacc.
    { apply bool_decide_eq_true in Herr. unfold check in Herr. split.
      - by destruct (JS.truthy (body_status b)).
      - destruct (JS.truthy (body_skills b)); [done |].
        by destruct (JS.truthy (body_status b)). }
    destruct (findOne principal st) as [p|] eqn:Hfind.
    + destruct (upsert_profile_update _ _ _ _ Hacc Hfind)
        as (bf & af & Hd & Hb & ->). simpl.
      rewrite (upsert_profile_update_at principal b bf
                 (set_fields (build_fields principal b) p) af (next_id st)
                 Hacc Hb eq_refl).
      by rewrite set_fields_twice.
    + rewrite (upsert_profile_create _ _ _ Hacc Hfind). simpl.
      rewrite (upsert_profile_update_at principal b (docs st)
                 (new_profile (next_id st) (build_fields principal b)) []
                 (S (next_id st)) Hacc (proj1 (findOne_none _ _) Hfind) eq_refl).
      by rewrite set_fields_new.
  - unfold upsert_profile. by rewrite !Herr.
Qed.

Lemma find_skips {A} (f : A -> bool) (before after : list A) (x y : A) :
  f x = false -> f y = false ->
  JS.find f (before ++ x :: after) = JS.find f (before ++ y :: after).
Proof.
  intros Hx Hy. unfold JS.find.
  induction before as [|z before IH]; simpl.
  - by rewrite Hx, Hy.
  - by rewrite IH.
Qed.

Lemma find_snoc_skips {A} (f : A -> bool) (l : list A) (x : A) :
  f x = false -> JS.find f (l ++ [x]) = JS.find f l.
Proof.
  intros Hx. unfold JS.find. induction l as [|z l IH]; simpl.
  - by rewrite Hx.
  - by rewrite IH.
Qed.

(** X12. [upsert_profile] touches the principal's profile only: the
    profile found for any other user is the same before and after,
    whatever the body. *)
Theorem upsert_profile_spares_other_users principal b st u :
  u <> principal ->
  findOne u (upsert_profile principal b st).2 = findOne u st.
Proof.
  intros Hne. unfold upsert_profile.
  destruct (negb (bool_decide _)); [done |].
  destruct (findOne principal st) as [p|] eqn:Hfind; simpl.
  - destruct (proj1 (findOne_first _ _ _) Hfind) as (bf & af & Hd & Hu & Hb).
    rewrite Hd, (update_first_at _ _ _ _ _ Hb Hu). simpl.
    unfold findOne. simpl. rewrite Hd.
    apply find_skips; simpl; apply strict_eq_false; congruence.
  - unfold findOne. simpl. apply find_snoc_skips. simpl.
    apply strict_eq_false. congruence.
Qed.

(** X13. A body without a non-empty [status] or without a non-empty
    [skills] is turned down before anything is read or written: the
    answer is a 400 with one message per missing field, in the order
    status, skills, and the collection is unchanged. *)
Theorem upsert_profile_rejects_incomplete principal b st :
  JS.truthy (body_status b) = false \/ JS.truthy (body_skills b) = false ->
  upsert_profile principal b st
  = (json_at BadRequest
       (Errors ((if JS.truthy (body_status b) then []
                 else ["Status is required."])
                  ++ (if JS.truthy (body_skills b) then []
                      else ["Skills is required."]))),
     st)
  /\ (upsert_profile principal b st).2 = st
  /\ code (upsert_profile principal b st).1 = BadRequest.
Proof.
  intros H. unfold upsert_profile, check.
  destruct (JS.truthy (body_status b)), (JS.truthy (body_skills b)); simpl;
    try done.
  by destruct H.
Qed.

(** X14. What [upsert_profile] answers is what [get_me] reads afterwards:
    after an accepted upsert, [get_me] answers with the profile the
    upsert answered with, together with the principal's User record. *)
Theorem upsert_then_get_me principal b st users :
  accepted b ->
  exists p,
    (upsert_profile principal b st).1 = json (ProfileJson (Some p)) /\
    user p = principal /\
    get_me principal users (upsert_profile principal b st).2
    = {| read_code := OK;
         read_body :=
           ProfileWithUser
             {| populated_profile := p;
                populated_user := users !! principal |} |}.
Proof.
  intros Hacc.
  exists (match findOne principal st with
          | Some p => set_fields (build_fields principal b) p
          | None => new_profile (next_id st) (build_fields principal b)
          end).
  split; [| split].
  - destruct (findOne principal st) as [p|] eqn:Hfind.
    + by destruct (upsert_profile_update _ _ _ _ Hacc Hfind)
        as (bf & af & _ & _ & ->).
    + by rewrite (upsert_profile_create _ _ _ Hacc Hfind).
  - by destruct (findOne principal st).
  - unfold get_me. rewrite (upsert_profile_stored _ _ _ Hacc).
    by destruct (findOne principal st).
Qed.

(** X15. [get_profile_by_user] gives one answer for a user identifier it
    cannot read and for one without a profile, the 400 "Profile Not
    Found."; for a user with a profile it answers as that user's [get_me]
    does. *)
Theorem get_profile_by_user_answers user_id users st :
  (match castObjectId user_id with
   | Some uoid => findOne uoid st = None
   | None => True
   end ->
   get_profile_by_user castObjectId user_id users st
   = {| read_code := BadRequest; read_body := ReadMsg "Profile Not Found." |})
  /\ (forall uoid p,
        castObjectId user_id = Some uoid -> findOne uoid st = Some p ->
        get_profile_by_user castObjectId user_id users st
        = get_me uoid users st /\
        get_profile_by_user castObjectId user_id users st
        = {| read_code := OK;
             read_body := ProfileWithUser (populate users p) |}).
Proof.
  unfold get_profile_by_user, get_me. split.
  - destruct (castObjectId user_id) as [uoid|]; simpl; [| done].
    by intros ->.
  - intros uoid p -> Hp. simpl. by rewrite Hp.
Qed.

Lemma remove_first_at u before p after :
  Forall (fun q => user q <> u) before -> user p = u ->
  remove_first u (before ++ p :: after) = before ++ after.
Proof.
  intros Hb Hp. induction Hb as [|q bf Hq Hb IH]; simpl.
  - apply strict_eq_true in Hp. by rewrite Hp.
  - apply strict_eq_false in Hq. by rewrite Hq, IH.
Qed.

Lemma remove_first_none u l :
  Forall (fun q => user q <> u) l -> remove_first u l = l.
Proof.
  induction 1 as [|q l Hq Hl IH]; simpl; [done |].
  apply strict_eq_false in Hq. by rewrite Hq, IH.
Qed.

Lemma find_drops {A} (f : A -> bool) (before after : list A) (x : A) :
  f x = false -> JS.find f (before ++ x :: after) = JS.find f (before ++ after).
Proof.
  intros Hx. unfold JS.find. induction before as [|z before IH]; simpl.
  - by rewrite Hx.
  - by rewrite IH.
Qed.

Lemma profiles_of_zero u st : profiles_of u st = 0%nat -> findOne u st = None.
Proof.
  unfold profiles_of, findOne, JS.filter, JS.find.
  induction (docs st) as [|q l IH]; simpl; [done |].
  destruct (JS.strict_eq (user q) u); [done | exact IH].
Qed.

Lemma delete_own_removes_the_account_aux principal users st :
  profiles_of principal (delete_own principal users st).2.1
  = (profiles_of principal st - 1)%nat /\
  next_id (delete_own principal users st).2.1 = next_id st.
Proof.
  unfold delete_own. simpl. split; [| done].
  destruct (findOne principal st) as [p|] eqn:Hfind.
  - destruct (proj1 (findOne_first _ _ _) Hfind) as (bf & af & Hd & Hu & Hb).
    destruct st as [d n]. simpl in Hd |- *. subst d.
    rewrite (remove_first_at _ _ _ _ Hb Hu).
    rewrite !profiles_of_app. unfold profiles_of, JS.filter. simpl.
    apply strict_eq_true in Hu. rewrite Hu. simpl. lia.
  - pose proof (proj1 (findOne_none _ _) Hfind) as Hall.
    rewrite (remove_first_none _ _ Hall).
    destruct st as [d n]. simpl. by rewrite (profiles_of_none _ _ Hfind).
Qed.

(** X16. [delete_own] removes the principal's User record and one
    profile of the principal's, the first, and answers "User Deleted"
    whether or not there was a profile; the User records and the profiles
    of everyone else stay as they were. *)
Theorem delete_own_removes_the_account principal users st :
  (delete_own principal users st).1 = json (Msg "User Deleted") /\
  (delete_own principal users st).2.2 !! principal = None /\
  profiles_of principal (delete_own principal users st).2.1
  = (profiles_of principal st - 1)%nat /\
  (forall u, u <> principal ->
             (delete_own principal users st).2.2 !! u = users !! u /\
             findOne u (delete_own principal users st).2.1 = findOne u st).
Proof.
  unfold delete_own. simpl. split; [done |].
  split; [apply lookup_delete_eq |].
  destruct (findOne principal st) as [p|] eqn:Hfind.
  - destruct (proj1 (findOne_first _ _ _) Hfind) as (bf & af & Hd & Hu & Hb).
    destruct st as [d n]. simpl in Hd |- *. subst d.
    rewrite (remove_first_at _ _ _ _ Hb Hu). split.
    + rewrite !profiles_of_app. unfold profiles_of, JS.filter. simpl.
      apply strict_eq_true in Hu. rewrite Hu. simpl. lia.
    + intros u Hne. split; [by apply lookup_delete_ne |].
      unfold findOne. simpl. symmetry. apply find_drops.
      apply strict_eq_false. congruence.
  - pose proof (proj1 (findOne_none _ _) Hfind) as Hall.
    rewrite (remove_first_none _ _ Hall). split.
    + destruct st as [d n]. simpl.
      rewrite (profiles_of_none _ _ Hfind). done.
    + intros u Hne. split; [by apply lookup_delete_ne |]. by destruct st.
Qed.

(** *** Identities are handed out once *)

Lemma identities_mono p n m :
  (n <= m)%nat ->
  Forall (fun i => (i < n)%nat) (identities p) ->
  Forall (fun i => (i < m)%nat) (identities p).
Proof.
  intros Hle H. eapply Forall_impl; [exact H |]. intros i Hi. simpl in Hi. lia.
Qed.

(** In a collection whose identities were handed out by [fresh], the
    next identity is that of no document and of no entry. *)
Lemma next_id_is_new st q :
  ids_below st -> q ∈ docs st -> next_id st ∉ identities q.
Proof.
  intros Hst Hq Hin.
  pose proof (proj1 (Forall_forall _ _) Hst q Hq) as Hbelow.
  pose proof (proj1 (Forall_forall _ _) Hbelow _ Hin) as Hlt. simpl in Hlt. lia.
Qed.

Lemma ids_below_empty : ids_below empty.
Proof. constructor. Qed.

Lemma findOne_member u st p : findOne u st = Some p -> p ∈ docs st.
Proof.
  intros Hfind.
  destruct (proj1 (findOne_first _ _ _) Hfind) as (bf & af & -> & _ & _).
  apply elem_of_app. right. left.
Qed.

Lemma replace_doc_all (P : Profile -> Prop) p l :
  Forall P l -> P p -> Forall P (replace_doc p l).
Proof.
  intros Hl Hp. induction Hl as [|q l Hq Hl IH]; simpl; [constructor |].
  destruct (profile_id q =? profile_id p)%nat; by constructor.
Qed.

Lemma remove_first_all (P : Profile -> Prop) u l :
  Forall P l -> Forall P (remove_first u l).
Proof.
  induction 1 as [|q l Hq Hl IH]; simpl; [constructor |].
  destruct (JS.strict_eq (user q) u); [done | by constructor].
Qed.

(** [upsert_profile] and [delete_own] keep every identity below
    [next_id]. *)
Lemma upsert_profile_ids_below principal b st :
  ids_below st -> ids_below (upsert_profile principal b st).2.
Proof.
  intros Hst. unfold upsert_profile.
  destruct (negb (bool_decide _)); [done |].
  destruct (findOne principal st) as [p|] eqn:Hfind; simpl.
  - destruct (proj1 (findOne_first _ _ _) Hfind) as (bf & af & Hd & Hu & Hb).
    rewrite Hd, (update_first_at _ _ _ _ _ Hb Hu). simpl.
    unfold ids_below in *. simpl. rewrite Hd in Hst.
    apply Forall_app in Hst as [Hbf Hrest].
    apply Forall_cons in Hrest as [Hp Haf].
    apply Forall_app. split; [done |]. by constructor.
  - unfold ids_below in *. simpl. apply Forall_app. split.
    + eapply Forall_impl; [exact Hst |]. intros q Hq.
      apply (identities_mono q (next_id st)); [lia | done].
    + constructor; [| constructor]. repeat constructor.
Qed.

Lemma delete_own_ids_below principal users st :
  ids_below st -> ids_below (delete_own principal users st).2.1.
Proof. intros Hst. unfold delete_own, ids_below. simpl. by apply remove_first_all. Qed.

(** X17. After [delete_own], a principal who had at most one profile has
    none: [get_me] answers that there is no profile, and an accepted
    upsert creates a new document, with no experience and no education.
    In a collection whose identities were handed out by the store, the
    new document's identity is that of no document or entry the
    collection had, the deleted profile included. *)
Theorem deleted_account_starts_over principal users st b :
  (profiles_of principal st <= 1)%nat -> accepted b -> ids_below st ->
  findOne principal (delete_own principal users st).2.1 = None /\
  get_me principal (delete_own principal users st).2.2
    (delete_own principal users st).2.1
  = {| read_code := BadRequest;
       read_body := ReadMsg "There's no Profile for this user" |} /\
  exists p,
    findOne principal
      (upsert_profile principal b (delete_own principal users st).2.1).2
    = Some p /\
    profile_id p = next_id st /\ experience p = [] /\ education p = [] /\
    (forall q, q ∈ docs st -> profile_id p ∉ identities q).
Proof.
  intros Hle Hacc Hids.
  destruct (delete_own_removes_the_account_aux principal users st) as [Hn Hid].
  assert (findOne principal (delete_own principal users st).2.1 = None) as Hnone.
  { apply profiles_of_zero. rewrite Hn. lia. }
  split; [exact Hnone |]. split.
  - unfold get_me. by rewrite Hnone.
  - eexists. rewrite (upsert_profile_stored _ _ _ Hacc), Hnone.
    split; [done |]. split; [exact Hid |]. split; [done |]. split; [done |].
    intros q Hq. exact (next_id_is_new st q Hids Hq).
Qed.

(** *** Entries of [experience] and [education] *)

Variable idString : nat -> string.

(** The verdicts of the Profile model's schema on a new entry. *)
Variable experience_ok : ExperienceBody -> bool.
Variable education_ok : EducationBody -> bool.

(** A loaded profile that is written back is the one found for its user
    afterwards. *)
Lemma findOne_save_doc principal st p p' :
  findOne principal st = Some p ->
  user p' = principal -> profile_id p' = profile_id p ->
  findOne principal (save_doc p' st) = Some p'.
Proof.
  intros Hfind Hu Hid.
  destruct (proj1 (findOne_first _ _ _) Hfind) as (bf & af & Hd & Hup & Hb).
  destruct (replace_doc_first principal p p' bf af Hb Hu Hid)
    as (bf' & af' & Hr & Hb').
  apply findOne_first. exists bf', af'. simpl. by rewrite Hd, Hr.
Qed.

Lemma findOne_user principal st p : findOne principal st = Some p -> user p = principal.
Proof.
  intros Hfind.
  by destruct (proj1 (findOne_first _ _ _) Hfind) as (bf & af & _ & Hu & _).
Qed.

Lemma indexOf_missing {A} (key : A -> string) (l : list A) u :
  (forall x, x ∈ l -> key x <> u) -> JS.indexOf (map key l) u = -1.
Proof. apply indexOf_from_missing. Qed.

(** X18. [remove_experience] goes by the entry's identity. For a
    principal with a profile: when no entry has the identity the answer
    is the 400 "ID not Found" and the collection is unchanged; otherwise
    the first entry with the identity is removed, the other entries keep
    their order, and the profile answered is the one stored. *)
Theorem remove_experience_by_identity principal id st p :
  findOne principal st = Some p ->
  ((forall e, e ∈ experience p -> idString (exp_id e) <> id) ->
   remove_experience idString principal id st
   = (json_at BadRequest (Msg "ID not Found"), st))
  /\ ((exists e, e ∈ experience p /\ idString (exp_id e) = id) ->
      exists before removed after,
        experience p = before ++ removed :: after /\
        idString (exp_id removed) = id /\
        Forall (fun e => idString (exp_id e) <> id) before /\
        (remove_experience idString principal id st).1
        = json (ProfileJson (Some (set_experience p (before ++ after)))) /\
        findOne principal (remove_experience idString principal id st).2
        = Some (set_experience p (before ++ after))).
Proof.
  intros Hfind. unfold remove_experience. rewrite Hfind. simpl. split.
  - intros Hnone.
    by rewrite (indexOf_missing (fun item => idString (exp_id item))
                  (experience p) id Hnone).
  - intros Hsome.
    destruct (indexOf_first (fun item => idString (exp_id item))
                (experience p) id Hsome)
      as (bf & rm & af & Hsplit & Hr & Hb & Hidx).
    exists bf, rm, af. rewrite Hidx.
    rewrite (proj2 (Z.eqb_neq (Z.of_nat (length bf)) (-1))) by lia.
    assert (JS.splice (experience p) (Z.of_nat (length bf)) 1 = bf ++ af)
      as -> by (rewrite Hsplit; apply splice_one).
    simpl. repeat split; try done.
    apply (findOne_save_doc principal st p); [done | | done].
    simpl. by apply (findOne_user principal st).
Qed.

(** X19. [remove_education] goes by the entry's identity in the same
    way: the 400 "ID not Found" and an unchanged collection when no entry
    has it, otherwise the first entry with it is removed and the others
    keep their order; [experience] is not touched. *)
Theorem remove_education_by_identity principal id st p :
  findOne principal st = Some p ->
  ((forall e, e ∈ education p -> idString (edu_id e) <> id) ->
   remove_education idString principal id st
   = (json_at BadRequest (Msg "ID not Found"), st))
  /\ ((exists e, e ∈ education p /\ idString (edu_id e) = id) ->
      exists before removed after,
        education p = before ++ removed :: after /\
        idString (edu_id removed) = id /\
        Forall (fun e => idString (edu_id e) <> id) before /\
        (remove_education idString principal id st).1
        = json (ProfileJson (Some (set_education p (before ++ after)))) /\
        findOne principal (remove_education idString principal id st).2
        = Some (set_education p (before ++ after)) /\
        experience (set_education p (before ++ after)) = experience p).
Proof.
  intros Hfind. unfold remove_education. rewrite Hfind. simpl. split.
  - intros Hnone.
    by rewrite (indexOf_missing (fun item => idString (edu_id item))
                  (education p) id Hnone).
  - intros Hsome.
    destruct (indexOf_first (fun item => idString (edu_id item))
                (education p) id Hsome)
      as (bf & rm & af & Hsplit & Hr & Hb & Hidx).
    exists bf, rm, af. rewrite Hidx.
    rewrite (proj2 (Z.eqb_neq (Z.of_nat (length bf)) (-1))) by lia.
    assert (JS.splice (education p) (Z.of_nat (length bf)) 1 = bf ++ af)
      as -> by (rewrite Hsplit; apply splice_one).
    simpl. repeat split; try done.
    apply (findOne_save_doc principal st p); [done | | done].
    simpl. by apply (findOne_user principal st).
Qed.

Lemma set_experience_push p e :
  set_experience (push_experience p e) (experience p) = p.
Proof. by destruct p. Qed.

(** X20. An experience entry that was added can be taken back: for an
    entry the validators and the store accept, removing it under the
    identity it was given answers with the profile as it was before the
    entry, and that is the profile stored. *)
Theorem add_then_remove_experience_restores principal e st p :
  findOne principal st = Some p ->
  valid_experience e -> experience_ok e = true ->
  (remove_experience idString principal (idString (next_id st))
     (add_experience experience_ok principal e st).2).1
  = json (ProfileJson (Some p))
  /\ findOne principal
       (remove_experience idString principal (idString (next_id st))
          (add_experience experience_ok principal e st).2).2
     = Some p.
Proof.
  intros Hfind Hv Hok.
  destruct (add_experience_found experience_ok principal e st p Hv Hok Hfind)
    as [_ Hst].
  unfold remove_experience. rewrite Hst. simpl.
  unfold JS.indexOf. simpl. rewrite strict_eq_refl. simpl.
  change (JS.splice (JS.unshift (experience p)
                       {| exp_id := next_id st; exp_fields := e |}) 0 1)
    with (JS.splice ([] ++ {| exp_id := next_id st; exp_fields := e |}
                        :: experience p) (Z.of_nat (length (@nil Experience))) 1).
  rewrite splice_one. simpl.
  change (set_experience _ (experience p))
    with (set_experience
            (push_experience p {| exp_id := next_id st; exp_fields := e |})
            (experience p)).
  rewrite set_experience_push. split; [done |].
  eapply findOne_save_doc; [exact Hst | | done].
  by apply (findOne_user principal st).
Qed.

Lemma valid_education_no_errors e :
  valid_education e ->
  check (new_school e) "School is required."
    ++ check (new_degree e) "Degree is required."
    ++ check (new_fieldofstudy e) "Field of Study is required."
    ++ check (new_from e) "From date is required." = [].
Proof. intros (H1 & H2 & H3 & H4). unfold check. by rewrite H1, H2, H3, H4. Qed.

(** X21. The entry handlers do not create a profile, and do not answer
    as [get_me] does when there is none: for a principal without a
    profile, adding or removing an experience or education entry answers
    with the server failure and leaves the collection unchanged, where
    [get_me] answers the 400 that there is no profile. *)
Theorem entries_need_a_profile principal users st :
  findOne principal st = None ->
  (forall e, valid_experience e ->
             add_experience experience_ok principal e st
             = (send ServerError "Server Error.", st))
  /\ (forall e, valid_education e ->
                add_education education_ok principal e st
                = (send ServerError "Server Error.", st))
  /\ (forall id, remove_experience idString principal id st
                 = (send ServerError "Server Error.", st))
  /\ (forall id, remove_education idString principal id st
                 = (send ServerError "Server Error.", st))
  /\ get_me principal users st
     = {| read_code := BadRequest;
          read_body := ReadMsg "There's no Profile for this user" |}.
Proof.
  intros Hnone. repeat split.
  - intros e Hv. unfold add_experience.
    rewrite (valid_experience_no_errors e Hv). simpl. by rewrite Hnone.
  - intros e Hv. unfold add_education.
    rewrite (valid_education_no_errors e Hv). simpl. by rewrite Hnone.
  - intros id. unfold remove_experience. by rewrite Hnone.
  - intros id. unfold remove_education. by rewrite Hnone.
  - unfold get_me. by rewrite Hnone.
Qed.

(** The runs of [add_education] on a principal with a profile. *)
Lemma add_education_found principal e st p :
  valid_education e -> education_ok e = true ->
  findOne principal st = Some p ->
  let p' :=
    set_education p
      ({| edu_id := next_id st; edu_school := new_school e;
          edu_degree := new_degree e;
          edu_fieldofstudy := new_fieldofstudy e;
          edu_from := new_from e; edu_to := new_to e;
          edu_current := new_current e;
          edu_description := new_description e |} :: education p) in
  add_education education_ok principal e st
  = (json (ProfileJson (Some p')),
     save_doc p' {| docs := docs st; next_id := S (next_id st) |}).
Proof.
  intros Hv Hok Hfind p'. unfold add_education, save_validated.
  rewrite (valid_education_no_errors e Hv). simpl.
  by rewrite Hfind, Hok.
Qed.

(** [add_experience] and [add_education] keep every identity below
    [next_id]. *)
Lemma add_experience_ids_below principal e st :
  ids_below st -> ids_below (add_experience experience_ok principal e st).2.
Proof.
  intros Hst. unfold add_experience, save_validated.
  destruct (negb (bool_decide _)); [done |].
  destruct (findOne principal st) as [p|] eqn:Hfind; simpl; [| done].
  destruct (experience_ok e); simpl; [| done].
  unfold ids_below in *. simpl. apply replace_doc_all.
  - eapply Forall_impl; [exact Hst |]. intros q Hq.
    apply (identities_mono q (next_id st)); [lia | done].
  - pose proof (proj1 (Forall_forall _ _) Hst p (findOne_member _ _ _ Hfind))
      as Hp.
    unfold identities in *. simpl.
    apply Forall_cons in Hp as [Hid Hp].
    constructor; [simpl in *; lia |]. constructor; [lia |].
    eapply Forall_impl; [exact Hp |]. intros i Hi. simpl in Hi. lia.
Qed.

Lemma add_education_ids_below principal e st :
  ids_below st -> ids_below (add_education education_ok principal e st).2.
Proof.
  intros Hst. unfold add_education, save_validated.
  destruct (negb (bool_decide _)); [done |].
  destruct (findOne principal st) as [p|] eqn:Hfind; simpl; [| done].
  destruct (education_ok e); simpl; [| done].
  unfold ids_below in *. simpl. apply replace_doc_all.
  - eapply Forall_impl; [exact Hst |]. intros q Hq.
    apply (identities_mono q (next_id st)); [lia | done].
  - pose proof (proj1 (Forall_forall _ _) Hst p (findOne_member _ _ _ Hfind))
      as Hp.
    unfold identities in *. simpl.
    apply Forall_cons in Hp as [Hid Hp].
    apply Forall_app in Hp as [Hexp Hedu].
    constructor; [simpl in *; lia |]. apply Forall_app. split.
    + eapply Forall_impl; [exact Hexp |]. intros i Hi. simpl in Hi. lia.
    + constructor; [lia |].
      eapply Forall_impl; [exact Hedu |]. intros i Hi. simpl in Hi. lia.
Qed.

(** X22. For a principal with a profile, [add_education] of an entry
    that the validators and the store accept puts the entry at index 0
    of [education] and keeps the entries that were there, in order, after
    it; [experience] is not touched. In a collection whose identities
    were handed out by the store, the entry's identity is new: no
    document and no entry of the collection had it. [add_experience],
    for its part, does not touch [education]. *)
Theorem education_and_experience_are_apart principal st p :
  findOne principal st = Some p -> ids_below st ->
  (forall e,
      valid_education e -> education_ok e = true ->
      exists p',
        (add_education education_ok principal e st).1
        = json (ProfileJson (Some p')) /\
        findOne principal (add_education education_ok principal e st).2
        = Some p' /\
        education p'
        = {| edu_id := next_id st; edu_school := new_school e;
             edu_degree := new_degree e;
             edu_fieldofstudy := new_fieldofstudy e;
             edu_from := new_from e; edu_to := new_to e;
             edu_current := new_current e;
             edu_description := new_description e |} :: education p /\
        experience p' = experience p /\
        (forall q, q ∈ docs st -> next_id st ∉ identities q) /\
        ids_below (add_education education_ok principal e st).2)
  /\ (forall e,
        valid_experience e -> experience_ok e = true ->
        exists p',
          findOne principal (add_experience experience_ok principal e st).2
          = Some p' /\
          education p' = education p).
Proof.
  intros Hfind Hids. split.
  - intros e Hv Hok. eexists.
    split; [by rewrite (add_education_found principal e st p Hv Hok Hfind) |].
    split.
    { rewrite (add_education_found principal e st p Hv Hok Hfind). simpl.
      change {| docs := replace_doc ?q (docs st); next_id := S (next_id st) |}
        with (save_doc q {| docs := docs st; next_id := S (next_id st) |}).
      apply (findOne_save_doc principal _ p); [| | done].
      + by destruct st.
      + simpl. by apply (findOne_user principal st). }
    split; [done |]. split; [done |]. split.
    + intros q Hq. by apply next_id_is_new.
    + by apply add_education_ids_below.
  - intros e Hv Hok.
    destruct (add_experience_found experience_ok principal e st p Hv Hok Hfind)
      as [_ Hst].
    eexists. split; [exact Hst | done].
Qed.

(** X25. When the store turns the new entry down on save, nothing is
    written: for a principal with a profile and an entry that passes the
    handler's validators but not the store's schema, [add_experience]
    and [add_education] answer with the server failure and leave the
    collection as it was. *)
Theorem rejected_save_writes_nothing principal st p :
  findOne principal st = Some p ->
  (forall e, valid_experience e -> experience_ok e = false ->
             add_experience experience_ok principal e st
             = (send ServerError "Server Error.", st))
  /\ (forall e, valid_education e -> education_ok e = false ->
                add_education education_ok principal e st
                = (send ServerError "Server Error.", st)).
Proof.
  intros Hfind. split.
  - intros e Hv Hno. unfold add_experience, save_validated.
    rewrite (valid_experience_no_errors e Hv). simpl. by rewrite Hfind, Hno.
  - intros e Hv Hno. unfold add_education, save_validated.
    rewrite (valid_education_no_errors e Hv). simpl. by rewrite Hfind, Hno.
Qed.

(** *** The normal form of [skills] is stable *)

Lemma split_no_comma s : comma_free s -> JS.split comma s = [s].
Proof.
  induction s as [|c s IH]; intros Hs; [done |].
  inversion Hs as [|? ? Hc Hs']; subst. simpl.
  apply Ascii.eqb_neq in Hc. rewrite Hc, (IH Hs'). done.
Qed.

Lemma split_at_comma s t :
  comma_free s ->
  JS.split comma (String.append s (String comma t)) = s :: JS.split comma t.
Proof.
  induction s as [|c s IH]; intros Hs.
  - rewrite append_nil_l. reflexivity.
  - inversion Hs as [|? ? Hc Hs']; subst. rewrite append_cons. simpl.
    apply Ascii.eqb_neq in Hc. rewrite Hc, (IH Hs'). done.
Qed.

(** Cutting at the commas what was joined with commas gives the pieces
    back. *)
Lemma split_of_join pieces :
  pieces <> [] -> Forall comma_free pieces ->
  JS.split comma (join_commas pieces) = pieces.
Proof.
  intros Hne Hall. induction Hall as [|piece rest Hp Hrest IH]; [done |].
  destruct rest as [|q rest].
  - simpl. by apply split_no_comma.
  - change (join_commas (piece :: q :: rest))
      with (String.append piece (String comma (join_commas (q :: rest)))).
    rewrite (split_at_comma _ _ Hp), IH; done.
Qed.

Lemma list_ascii_append s t :
  list_ascii_of_string (String.append s t)
  = list_ascii_of_string s ++ list_ascii_of_string t.
Proof.
  induction s as [|c s IH]; [done |]. rewrite append_cons. simpl. by rewrite IH.
Qed.

Lemma trim_comma_free s : comma_free s -> comma_free (JS.trim s).
Proof.
  intros Hs. destruct (trim_spec s) as (l & r & Heq & _).
  unfold comma_free in *. rewrite Heq, !list_ascii_append in Hs.
  apply Forall_app in Hs as [_ Hs]. by apply Forall_app in Hs as [Hs _].
Qed.

Lemma trimStart_fixed s : no_blank_at_start s -> JS.trimStart s = s.
Proof. destruct s as [|c s]; [done |]. simpl. by intros ->. Qed.

Lemma trimEnd_fixed s : no_blank_at_end s -> JS.trimEnd s = s.
Proof.
  induction s as [|c s IH]; intros Hs; [done |]. simpl.
  rewrite IH.
  - destruct s as [|d s]; [| done].
    by rewrite (Hs EmptyString c eq_refl).
  - intros s' c' ->. apply (Hs (String c s') c'). by rewrite append_cons.
Qed.

Lemma trim_twice s : JS.trim (JS.trim s) = JS.trim s.
Proof.
  destruct (trim_spec s) as (l & r & _ & _ & _ & Hstart & Hend).
  unfold JS.trim at 1. by rewrite (trimStart_fixed _ Hstart), (trimEnd_fixed _ Hend).
Qed.

(** X23. The skills the handler stores are a fixed point of its
    normalisation: joined with commas and sent again, they are cut and
    trimmed into the same sequence. In particular [trim] does nothing to a
    trimmed piece, and cutting at the commas gives back pieces that hold
    none. *)
Theorem stored_skills_are_stable input :
  map JS.trim
    (JS.split comma (join_commas (map JS.trim (JS.split comma input))))
  = map JS.trim (JS.split comma input).
Proof.
  rewrite split_of_join.
  - rewrite map_map. apply map_ext. intros piece. apply trim_twice.
  - pose proof (split_nonempty comma input). by destruct (JS.split comma input).
  - pose proof (split_comma_free input) as H.
    induction H as [|piece rest Hp _ IH]; simpl; constructor;
      [by apply trim_comma_free | exact IH].
Qed.

End ProfilesLaws.

(** *** The profile laws on the sample data *)

Lemma upsert_profile_spares_other_users_witness :
  Profiles.findOne Profiles.bob
    (Profiles.upsert_profile Profiles.alice Profiles.required_only
       Profiles.history).2
  = Profiles.findOne Profiles.bob Profiles.history.
Proof.
  apply (upsert_profile_spares_other_users Profiles.alice
           Profiles.required_only Profiles.history Profiles.bob).
  vm_compute. congruence.
Defined.

Lemma upsert_profile_rejects_incomplete_witness :
  Profiles.upsert_profile Profiles.alice
    {| Profiles.body_company := Some "Acme"; Profiles.body_website := None;
       Profiles.body_location := None; Profiles.body_bio := None;
       Profiles.body_status := Some ""; Profiles.body_githubusername := None;
       Profiles.body_skills := None; Profiles.body_youtube := None;
       Profiles.body_facebook := None; Profiles.body_twitter := None;
       Profiles.body_instagram := None; Profiles.body_linkedin := None |}
    Profiles.one_profile
  = (Profiles.json_at BadRequest
       (Profiles.Errors ["Status is required."; "Skills is required."]),
     Profiles.one_profile).
Proof.
  apply (upsert_profile_rejects_incomplete Profiles.alice
           {| Profiles.body_company := Some "Acme"; Profiles.body_website := None;
              Profiles.body_location := None; Profiles.body_bio := None;
              Profiles.body_status := Some "";
              Profiles.body_githubusername := None;
              Profiles.body_skills := None; Profiles.body_youtube := None;
              Profiles.body_facebook := None; Profiles.body_twitter := None;
              Profiles.body_instagram := None; Profiles.body_linkedin := None |}
           Profiles.one_profile).
  left. reflexivity.
Defined.

Lemma upsert_then_get_me_witness :
  exists p,
    (Profiles.upsert_profile Profiles.alice Profiles.required_only
       Profiles.empty).1
    = Profiles.json (Profiles.ProfileJson (Some p)) /\
    Profiles.user p = Profiles.alice /\
    Profiles.get_me Profiles.alice Profiles.sample_users
      (Profiles.upsert_profile Profiles.alice Profiles.required_only
         Profiles.empty).2
    = {| Profiles.read_code := OK;
         Profiles.read_body :=
           Profiles.ProfileWithUser
             {| Profiles.populated_profile := p;
                Profiles.populated_user :=
                  Profiles.sample_users !! Profiles.alice |} |}.
Proof.
  apply (upsert_then_get_me Profiles.alice Profiles.required_only
           Profiles.empty Profiles.sample_users).
  split; reflexivity.
Defined.

Lemma get_profile_by_user_answers_witness :
  Profiles.get_profile_by_user Profiles.by_length "me" Profiles.sample_users
    Profiles.history
  = {| Profiles.read_code := BadRequest;
       Profiles.read_body := Profiles.ReadMsg "Profile Not Found." |}
  /\ Profiles.get_profile_by_user Profiles.by_length Profiles.alice
       Profiles.sample_users Profiles.empty
     = {| Profiles.read_code := BadRequest;
          Profiles.read_body := Profiles.ReadMsg "Profile Not Found." |}
  /\ Profiles.get_profile_by_user Profiles.by_length Profiles.alice
       Profiles.sample_users Profiles.history
     = Profiles.get_me Profiles.alice Profiles.sample_users Profiles.history.
Proof.
  split; [| split].
  - apply (proj1 (get_profile_by_user_answers Profiles.by_length "me"
                    Profiles.sample_users Profiles.history)).
    exact I.
  - apply (proj1 (get_profile_by_user_answers Profiles.by_length Profiles.alice
                    Profiles.sample_users Profiles.empty)).
    reflexivity.
  - apply (proj2 (get_profile_by_user_answers Profiles.by_length Profiles.alice
                    Profiles.sample_users Profiles.history)
             Profiles.alice Profiles.studied eq_refl eq_refl).
Defined.

Lemma history_ids_below : Profiles.ids_below Profiles.history.
Proof.
  unfold Profiles.ids_below, Profiles.history. simpl.
  repeat (constructor; try (simpl; lia)).
Defined.

Lemma deleted_account_starts_over_witness :
  Profiles.findOne Profiles.alice
    (Profiles.delete_own Profiles.alice Profiles.sample_users
       Profiles.history).2.1 = None
  /\ Profiles.get_me Profiles.alice
       (Profiles.delete_own Profiles.alice Profiles.sample_users
          Profiles.history).2.2
       (Profiles.delete_own Profiles.alice Profiles.sample_users
          Profiles.history).2.1
     = {| Profiles.read_code := BadRequest;
          Profiles.read_body :=
            Profiles.ReadMsg "There's no Profile for this user" |}
  /\ exists p,
      Profiles.findOne Profiles.alice
        (Profiles.upsert_profile Profiles.alice Profiles.required_only
           (Profiles.delete_own Profiles.alice Profiles.sample_users
              Profiles.history).2.1).2 = Some p /\
      Profiles.profile_id p = 5%nat /\
      Profiles.experience p = [] /\ Profiles.education p = [] /\
      (forall q, q ∈ Profiles.docs Profiles.history ->
                 Profiles.profile_id p ∉ Profiles.identities q).
Proof.
  apply (deleted_account_starts_over Profiles.alice Profiles.sample_users
           Profiles.history Profiles.required_only).
  - vm_compute. lia.
  - split; reflexivity.
  - exact history_ids_below.
Defined.

Lemma remove_experience_by_identity_witness :
  Profiles.remove_experience Profiles.one_char Profiles.alice
    (Profiles.one_char 9) Profiles.history
  = (Profiles.json_at BadRequest (Profiles.Msg "ID not Found"), Profiles.history)
  /\ exists before removed after,
      Profiles.experience Profiles.studied = before ++ removed :: after /\
      Profiles.one_char (Profiles.exp_id removed) = Profiles.one_char 1 /\
      Forall (fun e => Profiles.one_char (Profiles.exp_id e)
                       <> Profiles.one_char 1) before /\
      (Profiles.remove_experience Profiles.one_char Profiles.alice
         (Profiles.one_char 1) Profiles.history).1
      = Profiles.json
          (Profiles.ProfileJson
             (Some (Profiles.set_experience Profiles.studied (before ++ after)))) /\
      Profiles.findOne Profiles.alice
        (Profiles.remove_experience Profiles.one_char Profiles.alice
           (Profiles.one_char 1) Profiles.history).2
      = Some (Profiles.set_experience Profiles.studied (before ++ after)).
Proof.
  split.
  - apply (proj1 (remove_experience_by_identity Profiles.one_char
                    Profiles.alice (Profiles.one_char 9) Profiles.history
                    Profiles.studied eq_refl)).
    intros e He. apply list_elem_of_In in He.
    destruct He as [<- | [<- | []]]; vm_compute; congruence.
  - apply (proj2 (remove_experience_by_identity Profiles.one_char
                    Profiles.alice (Profiles.one_char 1) Profiles.history
                    Profiles.studied eq_refl)).
    exists Profiles.junior. split; [right; left | reflexivity].
Defined.

Lemma remove_education_by_identity_witness :
  Profiles.remove_education Profiles.one_char Profiles.alice
    (Profiles.one_char 1) Profiles.history
  = (Profiles.json_at BadRequest (Profiles.Msg "ID not Found"), Profiles.history)
  /\ exists before removed after,
      Profiles.education Profiles.studied = before ++ removed :: after /\
      Profiles.one_char (Profiles.edu_id removed) = Profiles.one_char 3 /\
      Forall (fun e => Profiles.one_char (Profiles.edu_id e)
                       <> Profiles.one_char 3) before /\
      (Profiles.remove_education Profiles.one_char Profiles.alice
         (Profiles.one_char 3) Profiles.history).1
      = Profiles.json
          (Profiles.ProfileJson
             (Some (Profiles.set_education Profiles.studied (before ++ after)))) /\
      Profiles.findOne Profiles.alice
        (Profiles.remove_education Profiles.one_char Profiles.alice
           (Profiles.one_char 3) Profiles.history).2
      = Some (Profiles.set_education Profiles.studied (before ++ after)) /\
      Profiles.experience (Profiles.set_education Profiles.studied (before ++ after))
      = Profiles.experience Profiles.studied.
Proof.
  split.
  - apply (proj1 (remove_education_by_identity Profiles.one_char
                    Profiles.alice (Profiles.one_char 1) Profiles.history
                    Profiles.studied eq_refl)).
    intros e He. apply list_elem_of_In in He.
    destruct He as [<- | []]; vm_compute; congruence.
  - apply (proj2 (remove_education_by_identity Profiles.one_char
                    Profiles.alice (Profiles.one_char 3) Profiles.history
                    Profiles.studied eq_refl)).
    exists Profiles.degree. split; [left | reflexivity].
Defined.

Lemma add_then_remove_experience_restores_witness :
  (Profiles.remove_experience Profiles.one_char Profiles.alice
     (Profiles.one_char 5)
     (Profiles.add_experience Profiles.dated_experience Profiles.alice
        (Profiles.job "Lead" "2022") Profiles.history).2).1
  = Profiles.json (Profiles.ProfileJson (Some Profiles.studied))
  /\ Profiles.findOne Profiles.alice
       (Profiles.remove_experience Profiles.one_char Profiles.alice
          (Profiles.one_char 5)
          (Profiles.add_experience Profiles.dated_experience Profiles.alice
             (Profiles.job "Lead" "2022") Profiles.history).2).2
     = Some Profiles.studied.
Proof.
  apply (add_then_remove_experience_restores Profiles.one_char
           Profiles.dated_experience Profiles.alice
           (Profiles.job "Lead" "2022") Profiles.history Profiles.studied
           eq_refl).
  - repeat split; reflexivity.
  - reflexivity.
Defined.

Lemma entries_need_a_profile_witness :
  (forall e, Profiles.valid_experience e ->
             Profiles.add_experience Profiles.dated_experience Profiles.alice e
               Profiles.empty
             = (Profiles.send ServerError "Server Error.", Profiles.empty))
  /\ (forall e, Profiles.valid_education e ->
                Profiles.add_education Profiles.dated_education Profiles.alice e
                  Profiles.empty
                = (Profiles.send ServerError "Server Error.", Profiles.empty))
  /\ (forall id, Profiles.remove_experience Profiles.one_char Profiles.alice id
                   Profiles.empty
                 = (Profiles.send ServerError "Server Error.", Profiles.empty))
  /\ (forall id, Profiles.remove_education Profiles.one_char Profiles.alice id
                   Profiles.empty
                 = (Profiles.send ServerError "Server Error.", Profiles.empty))
  /\ Profiles.get_me Profiles.alice Profiles.sample_users Profiles.empty
     = {| Profiles.read_code := BadRequest;
          Profiles.read_body :=
            Profiles.ReadMsg "There's no Profile for this user" |}.
Proof.
  apply (entries_need_a_profile Profiles.one_char Profiles.dated_experience
           Profiles.dated_education Profiles.alice
           Profiles.sample_users Profiles.empty).
  reflexivity.
Defined.

Lemma education_and_experience_are_apart_witness :
  (exists p',
      (Profiles.add_education Profiles.dated_education Profiles.alice
         (Profiles.course "PUCRS" "2020") Profiles.history).1
      = Profiles.json (Profiles.ProfileJson (Some p')) /\
      Profiles.findOne Profiles.alice
        (Profiles.add_education Profiles.dated_education Profiles.alice
           (Profiles.course "PUCRS" "2020") Profiles.history).2 = Some p' /\
      Profiles.education p'
      = {| Profiles.edu_id := 5; Profiles.edu_school := Some "PUCRS";
           Profiles.edu_degree := Some "BSc";
           Profiles.edu_fieldofstudy := Some "Computing";
           Profiles.edu_from := Some "2020"; Profiles.edu_to := None;
           Profiles.edu_current := None;
           Profiles.edu_description := None |}
          :: Profiles.education Profiles.studied /\
      Profiles.experience p' = Profiles.experience Profiles.studied /\
      (forall q, q ∈ Profiles.docs Profiles.history ->
                 Profiles.next_id Profiles.history ∉ Profiles.identities q) /\
      Profiles.ids_below
        (Profiles.add_education Profiles.dated_education Profiles.alice
           (Profiles.course "PUCRS" "2020") Profiles.history).2)
  /\ (exists p',
        Profiles.findOne Profiles.alice
          (Profiles.add_experience Profiles.dated_experience Profiles.alice
             (Profiles.job "Lead" "2022") Profiles.history).2 = Some p' /\
        Profiles.education p' = Profiles.education Profiles.studied).
Proof.
  split.
  - apply (proj1 (education_and_experience_are_apart Profiles.dated_experience
                    Profiles.dated_education Profiles.alice
                    Profiles.history Profiles.studied eq_refl
                    history_ids_below)
             (Profiles.course "PUCRS" "2020")).
    + repeat split; reflexivity.
    + reflexivity.
  - apply (proj2 (education_and_experience_are_apart Profiles.dated_experience
                    Profiles.dated_education Profiles.alice
                    Profiles.history Profiles.studied eq_refl
                    history_ids_below)
             (Profiles.job "Lead" "2022")).
    + repeat split; reflexivity.
    + reflexivity.
Defined.

Lemma rejected_save_writes_nothing_witness :
  Profiles.add_experience Profiles.dated_experience Profiles.alice
    (Profiles.job "Lead" "soon") Profiles.history
  = (Profiles.send ServerError "Server Error.", Profiles.history)
  /\ Profiles.add_education Profiles.dated_education Profiles.alice
       (Profiles.course "PUCRS" "next year") Profiles.history
     = (Profiles.send ServerError "Server Error.", Profiles.history).
Proof.
  split.
  - apply (proj1 (rejected_save_writes_nothing Profiles.dated_experience
                    Profiles.dated_education Profiles.alice
                    Profiles.history Profiles.studied eq_refl)
             (Profiles.job "Lead" "soon")).
    + repeat split; reflexivity.
    + reflexivity.
  - apply (proj2 (rejected_save_writes_nothing Profiles.dated_experience
                    Profiles.dated_education Profiles.alice
                    Profiles.history Profiles.studied eq_refl)
             (Profiles.course "PUCRS" "next year")).
    + repeat split; reflexivity.
    + reflexivity.
Defined.

Lemma upsert_profile_keeps_absent_fields_witness :
  exists p',
    Profiles.findOne Profiles.alice
      (Profiles.upsert_profile Profiles.alice Profiles.required_only
         Profiles.history).2 = Some p' /\
    Profiles.profile_id p' = Profiles.profile_id Profiles.studied /\
    (Profiles.body_company Profiles.required_only = None ->
     Profiles.company p' = Profiles.company Profiles.studied) /\
    (Profiles.body_website Profiles.required_only = None ->
     Profiles.website p' = Profiles.website Profiles.studied) /\
    (Profiles.body_location Profiles.required_only = None ->
     Profiles.location p' = Profiles.location Profiles.studied) /\
    (Profiles.body_bio Profiles.required_only = None ->
     Profiles.bio p' = Profiles.bio Profiles.studied) /\
    (Profiles.body_githubusername Profiles.required_only = None ->
     Profiles.githubusername p' = Profiles.githubusername Profiles.studied) /\
    Profiles.experience p' = Profiles.experience Profiles.studied /\
    Profiles.education p' = Profiles.education Profiles.studied.
Proof.
  apply (upsert_profile_keeps_absent_fields Profiles.alice
           Profiles.required_only Profiles.history Profiles.studied).
  - split; reflexivity.
  - reflexivity.
Defined.
